(** * REDbot: the Last-Modified validation check and the HTML note formatter

    A shallow embedding of
    - [redbot/resource/active_check/lm_validate.py] (class [LmValidate]) and
    - the note and header presentation code of [redbot/formatter/html.py],
    together with the part of the Python runtime they rely on (exceptions,
    [%]-formatting of integers, [datetime.utcfromtimestamp]). *)

From Stdlib Require Import ZArith Lia Bool Ascii String.
From stdpp Require Import base tactics option list list_numbers strings pretty gmap.

Local Open Scope string_scope.
Local Open Scope Z_scope.

(** ** The Python runtime *)

Module Py.

(** The exceptions that the embedded code can meet. *)
Inductive exn : Set :=
| ValueError
| TypeError
| AttributeError
| IndexError
| KeyError
| RuntimeError.

(** A Python call either returns a value or raises. *)
Inductive result (A : Type) : Type :=
| Ok (a : A)
| Raise (e : exn).
Arguments Ok {A} a.
Arguments Raise {A} e.

Definition bind {A B : Type} (r : result A) (k : A -> result B) : result B :=
  match r with
  | Ok a => k a
  | Raise e => Raise e
  end.

(** [xs[i]] on a list: negative indices count from the end, anything out of
    range raises [IndexError]. *)
Definition getitem {A : Type} (xs : list A) (i : Z) : result A :=
  let n := Z.of_nat (length xs) in
  let j := if i <? 0 then i + n else i in
  if (0 <=? j) && (j <? n)
  then match xs !! Z.to_nat j with
       | Some x => Ok x
       | None => Raise IndexError
       end
  else Raise IndexError.

(** [s * n]: the string [s] repeated [n] times. *)
Fixpoint str_mul (s : string) (n : nat) : string :=
  match n with
  | O => ""
  | S k => s +:+ str_mul s k
  end.

(** ["%d" % n] and [str(n)] for an integer. *)
Definition str_int (n : Z) : string := pretty n.

(** ["%.<prec>d" % n]: the decimal digits of [|n|], padded with zeros on the
    left to at least [prec] digits, after the sign. *)
Definition fmt_d (prec : nat) (n : Z) : string :=
  let digits := pretty (Z.abs_N n) in
  let padded := str_mul "0" (prec - String.length digits) +:+ digits in
  if n <? 0 then "-" +:+ padded else padded.

(** ["%s" % x] where [x] is a string or [None]. *)
Definition fmt_s (x : option string) : string :=
  match x with
  | Some s => s
  | None => "None"
  end.

(** [a or b] on strings: the empty string is false. *)
Definition str_or (a b : string) : string :=
  match a with
  | "" => b
  | _ => a
  end.

(** *** [datetime] *)

Record datetime : Set := mk_datetime {
  year : Z;
  month : Z;
  day : Z;
  hour : Z;
  minute : Z;
  second : Z
}.

Definition MINYEAR : Z := 1.
Definition MAXYEAR : Z := 9999.

Definition _DAYS_IN_MONTH : list Z :=
  [-1; 31; 28; 31; 30; 31; 30; 31; 31; 30; 31; 30; 31].
Definition _DAYS_BEFORE_MONTH : list Z :=
  [-1; 0; 31; 59; 90; 120; 151; 181; 212; 243; 273; 304; 334].

Definition table (t : list Z) (i : Z) : Z := nth (Z.to_nat i) t (-1).

Definition _is_leap (y : Z) : bool :=
  (y mod 4 =? 0) && (negb (y mod 100 =? 0) || (y mod 400 =? 0)).

Definition _days_before_year (y : Z) : Z :=
  let y := y - 1 in
  y * 365 + y / 4 - y / 100 + y / 400.

Definition _days_in_month (y m : Z) : Z :=
  if (m =? 2) && _is_leap y then 29 else table _DAYS_IN_MONTH m.

Definition _days_before_month (y m : Z) : Z :=
  table _DAYS_BEFORE_MONTH m + (if (2 <? m) && _is_leap y then 1 else 0).

Definition _ymd2ord (y m d : Z) : Z :=
  _days_before_year y + _days_before_month y m + d.

Definition _DI400Y : Z := 146097.
Definition _DI100Y : Z := 36524.
Definition _DI4Y : Z := 1461.

(** Ordinal to (year, month, day), with 01-Jan-0001 as day 1. *)
Definition _ord2ymd (n : Z) : Z * Z * Z :=
  let n := n - 1 in
  let n400 := n / _DI400Y in
  let n := n mod _DI400Y in
  let y := n400 * 400 + 1 in
  let n100 := n / _DI100Y in
  let n := n mod _DI100Y in
  let n4 := n / _DI4Y in
  let n := n mod _DI4Y in
  let n1 := n / 365 in
  let n := n mod 365 in
  let y := y + n100 * 100 + n4 * 4 + n1 in
  if (n1 =? 4) || (n100 =? 4) then (y - 1, 12, 31)
  else
    let leapyear := (n1 =? 3) && (negb (n4 =? 24) || (n100 =? 3)) in
    let m := Z.shiftr (n + 50) 5 in
    let preceding :=
      table _DAYS_BEFORE_MONTH m + (if (2 <? m) && leapyear then 1 else 0) in
    let '(m, preceding) :=
      if n <? preceding
      then (m - 1,
            preceding - (table _DAYS_IN_MONTH (m - 1)
                         + (if (m - 1 =? 2) && leapyear then 1 else 0)))
      else (m, preceding) in
    (y, m, n - preceding + 1).

Definition toordinal (d : datetime) : Z :=
  _ymd2ord (year d) (month d) (day d).

(** [d.weekday()]: Monday is 0, Sunday is 6. *)
Definition weekday (d : datetime) : Z := (toordinal d + 6) mod 7.

(** The ordinal of 1970-01-01. *)
Definition EPOCH_ORDINAL : Z := 719163.

(** [datetime.utcfromtimestamp(t)] for an integer number of seconds since
    the epoch: the broken-down UTC time in the proleptic Gregorian calendar;
    [ValueError] when the year falls outside [MINYEAR..MAXYEAR]. *)
Definition utcfromtimestamp (t : Z) : result datetime :=
  let days := t / 86400 in
  let secs := t mod 86400 in
  let '(y, m, d) := _ord2ymd (days + EPOCH_ORDINAL) in
  if (MINYEAR <=? y) && (y <=? MAXYEAR)
  then Ok (mk_datetime y m d (secs / 3600) (secs mod 3600 / 60) (secs mod 60))
  else Raise ValueError.

End Py.

#[global] Instance result_ret : MRet Py.result := @Py.Ok.
#[global] Instance result_bind : MBind Py.result := fun A B k r => Py.bind r k.

(** ** Notes ([redbot.speak]) *)

Module Speak.

(** Modelled from the spec: the severities of [redbot.speak.levels]; the
    module itself is not part of the sources at hand, the members used are
    [GOOD], [WARN], [BAD] and [INFO]. *)
Inductive levels : Set := GOOD | WARN | BAD | INFO.

(** Modelled from the spec: the categories of [redbot.speak.categories]. *)
Inductive categories : Set :=
| GENERAL | SECURITY | CONNECTION | CONNEG | CACHING | VALIDATION | RANGE.

(** The note classes that [lm_validate.py] emits: five declared there, and
    [MISSING_HDRS_304], which it imports from [active_check.base]. *)
Inductive NoteClass : Set :=
| LM_SUBREQ_PROBLEM
| IMS_304
| IMS_FULL
| IMS_UNKNOWN
| IMS_STATUS
| MISSING_HDRS_304.

#[global] Instance NoteClass_eq_dec : EqDecision NoteClass.
Proof. solve_decision. Defined.
#[global] Instance levels_eq_dec : EqDecision levels.
Proof. solve_decision. Defined.
#[global] Instance categories_eq_dec : EqDecision categories.
Proof. solve_decision. Defined.

(** The [level] attribute of the classes declared in [lm_validate.py];
    [MISSING_HDRS_304] is declared elsewhere. *)
Definition level (c : NoteClass) : option levels :=
  match c with
  | LM_SUBREQ_PROBLEM => Some BAD
  | IMS_304 => Some GOOD
  | IMS_FULL => Some WARN
  | IMS_UNKNOWN => Some INFO
  | IMS_STATUS => Some INFO
  | MISSING_HDRS_304 => None
  end.

Definition category (c : NoteClass) : option categories :=
  match c with
  | MISSING_HDRS_304 => None
  | _ => Some VALIDATION
  end.

Definition summary (c : NoteClass) : option string :=
  match c with
  | LM_SUBREQ_PROBLEM =>
      Some "There was a problem checking for Last-Modified validation support."
  | IMS_304 => Some "If-Modified-Since conditional requests are supported."
  | IMS_FULL =>
      Some "An If-Modified-Since conditional request returned the full content unchanged."
  | IMS_UNKNOWN =>
      Some "An If-Modified-Since conditional request returned the full content, but it had changed."
  | IMS_STATUS =>
      Some "An If-Modified-Since conditional request returned a %(ims_status)s status."
  | MISSING_HDRS_304 => None
  end.

(** A note instance: its class, its subject and the keyword arguments it
    was created with. *)
Record Note : Set := mk_Note {
  note_class : NoteClass;
  subject : string;
  vars : list (string * string)
}.

#[global] Instance Note_eq_dec : EqDecision Note.
Proof. solve_decision. Defined.

End Speak.

(** ** [redbot/resource/active_check/lm_validate.py] *)

Module Message.

(** [thor.http.error.HttpError]: only its description is read. *)
Record HttpError : Set := mk_HttpError { desc : string }.

Record HttpRequest : Set := mk_HttpRequest {
  method : string;
  uri : string;
  headers : list (string * string)
}.

(** The response fields the check reads. [parsed_headers] maps a lower-case
    header name to its parsed value; the check reads the value of
    [last-modified] only, which the header parser stores as seconds since
    the epoch, and looks at the presence of the others. [http_error] is
    [None] until the transport reports an error. *)
Record HttpResponse : Type := mk_HttpResponse {
  status_code : string;
  parsed_headers : gmap string Z;
  payload_md5 : string;
  complete : bool;
  http_error : option HttpError
}.

(** [d.has_key(k)] *)
Definition has_key (d : gmap string Z) (k : string) : bool :=
  match d !! k with
  | Some _ => true
  | None => false
  end.

End Message.

Module Resource.
Import Speak Message.

(** The resource under test ([self.base]): the base request and response,
    the tri-state [ims_support] ([None] until a check decides it) and the
    notes collected so far. *)
Record HttpResource : Type := mk_HttpResource {
  request : HttpRequest;
  response : HttpResponse;
  ims_support : option bool;
  notes : list Note
}.

Definition set_ims_support (v : bool) (r : HttpResource) : HttpResource :=
  mk_HttpResource (request r) (response r) (Some v) (notes r).

(** Modelled from the spec: [add_note] of the resource, which this module
    reaches through [SubRequest.add_base_note] ([active_check/base.py], not
    part of the sources at hand): it instantiates the note of the given
    class with its subject and parameters and appends it to the notes of
    the resource. *)
Definition add_note (subj : string) (c : NoteClass)
    (kw : list (string * string)) (r : HttpResource) : HttpResource :=
  mk_HttpResource (request r) (response r) (ims_support r)
    (notes r ++ [mk_Note c subj kw])%list.

End Resource.

Module LmValidate.
Import Py Speak Message.

(** The sub-request object ([self]): the resource it was derived from, its
    own request and response, and whether its fetch was started. *)
Record SubRequest : Type := mk_SubRequest {
  base : Resource.HttpResource;
  request : HttpRequest;
  response : HttpResponse;
  fetch_started : bool
}.

Definition with_base (f : Resource.HttpResource -> Resource.HttpResource)
    (self : SubRequest) : SubRequest :=
  mk_SubRequest (f (base self)) (request self) (response self)
    (fetch_started self).

Definition check_name : string := "Last-Modified Validation".

Definition _weekdays : list string :=
  ["Mon"; "Tue"; "Wed"; "Thu"; "Fri"; "Sat"; "Sun"].

Definition _months : list (option string) :=
  [None; Some "Jan"; Some "Feb"; Some "Mar"; Some "Apr"; Some "May";
   Some "Jun"; Some "Jul"; Some "Aug"; Some "Sep"; Some "Oct"; Some "Nov";
   Some "Dec"].

(** Modelled from the spec: [SubRequest.add_base_note] of
    [active_check/base.py], which is not part of the sources at hand: the
    note is emitted on the base resource. *)
Definition add_base_note (subj : string) (c : NoteClass)
    (kw : list (string * string)) (self : SubRequest) : SubRequest :=
  with_base (Resource.add_note subj c kw) self.

(** Modelled from the spec: [SubRequest.check_missing_hdrs] of
    [active_check/base.py], which is not part of the sources at hand: for
    each of the listed headers that is absent from the probe response, a
    separate note of the given class is emitted, naming that header. *)
Fixpoint check_missing_hdrs (hdrs : list string) (c : NoteClass)
    (subreq_type : string) (self : SubRequest) : SubRequest :=
  match hdrs with
  | [] => self
  | hdr :: rest =>
      let self :=
        if has_key (parsed_headers (response self)) hdr then self
        else add_base_note hdr c
               [("missing_hdrs", hdr); ("subreq_type", subreq_type)] self in
      check_missing_hdrs rest c subreq_type self
  end.

(** The date of the [If-Modified-Since] header:
    ["%s, %.2d %s %.4d %.2d:%.2d:%.2d GMT"]. *)
Definition date_str (wd : string) (mon : option string) (l_m : datetime)
    : string :=
  wd +:+ ", " +:+ fmt_d 2 (day l_m) +:+ " " +:+ fmt_s mon +:+ " "
     +:+ fmt_d 4 (year l_m) +:+ " " +:+ fmt_d 2 (hour l_m) +:+ ":"
     +:+ fmt_d 2 (minute l_m) +:+ ":" +:+ fmt_d 2 (second l_m) +:+ " GMT".

Definition modify_req_hdrs (self : SubRequest)
    : result (list (string * string)) :=
  let req_hdrs := headers (Resource.request (base self)) in
  match parsed_headers (Resource.response (base self)) !! "last-modified" with
  | Some ts =>
      match utcfromtimestamp ts with
      | Raise ValueError => Ok req_hdrs
      | Raise e => Raise e
      | Ok l_m =>
          wd ← getitem _weekdays (weekday l_m);
          mon ← getitem _months (month l_m);
          Ok (req_hdrs ++ [("If-Modified-Since", date_str wd mon l_m)])%list
      end
  | None => Ok req_hdrs
  end.

Definition preflight (self : SubRequest) : bool * SubRequest :=
  if has_key (parsed_headers (Resource.response (base self))) "last-modified"
  then (true, self)
  else (false, with_base (Resource.set_ims_support false) self).

Definition done (self : SubRequest) : result SubRequest :=
  if negb (complete (response self)) then
    match http_error (response self) with
    | None => Raise AttributeError
    | Some err =>
        Ok (add_base_note "" LM_SUBREQ_PROBLEM [("problem", desc err)] self)
    end
  else if (status_code (response self) =? "304")%string then
    let self := with_base (Resource.set_ims_support true) self in
    let self := add_base_note "header-last-modified" IMS_304 [] self in
    Ok (check_missing_hdrs
          ["cache-control"; "content-location"; "etag"; "expires"; "vary"]
          MISSING_HDRS_304 "If-Modified-Since" self)
  else if (status_code (response self)
           =? status_code (Resource.response (base self)))%string then
    if (payload_md5 (response self)
        =? payload_md5 (Resource.response (base self)))%string then
      let self := with_base (Resource.set_ims_support false) self in
      Ok (add_base_note "header-last-modified" IMS_FULL [] self)
    else
      Ok (add_base_note "header-last-modified" IMS_UNKNOWN [] self)
  else
    Ok (add_base_note "header-last-modified" IMS_STATUS
          [("ims_status", status_code (response self));
           ("enc_ims_status",
            str_or (status_code (response self)) "(unknown)")] self).

(** Modelled from the spec: the start of the check ([SubRequest.check] of
    [active_check/base.py], not part of the sources at hand): the request
    is built and the fetch started only when the check is applicable. *)
Definition check (self : SubRequest) : result SubRequest :=
  let '(applicable, self) := preflight self in
  if applicable then
    hdrs ← modify_req_hdrs self;
    let req := Resource.request (base self) in
    Ok (mk_SubRequest (base self)
          (mk_HttpRequest (method req) (uri req) hdrs) (response self) true)
  else Ok self.

End LmValidate.

(** ** [redbot/formatter/html.py] *)

Module Html.
Import Py.

Definition nl : string := String "010"%char "".
(** The double quote character. *)
Definition dq : string := String "034"%char "".

(** [s.replace(c, by)] for a one-character [c]. *)
Fixpoint replace (c : ascii) (by_ : string) (s : string) : string :=
  match s with
  | "" => ""
  | String a rest =>
      (if Ascii.eqb a c then by_ else String a "") +:+ replace c by_ rest
  end.

(** [cgi.escape(s, quote=True)] *)
Definition e_html (s : string) : string :=
  let s := replace "&" "&amp;" s in
  let s := replace "<" "&lt;" s in
  let s := replace ">" "&gt;" s in
  replace "034" "&quot;" s.

(** [sep.join(xs)] *)
Fixpoint join (sep : string) (xs : list string) : string :=
  match xs with
  | [] => ""
  | [x] => x
  | x :: rest => x +:+ sep +:+ join sep rest
  end.

(** [c.lower()] for a character of a text string: among the code points
    below 256, the letters U+0041 to U+005A, U+00C0 to U+00D6 and U+00D8 to
    U+00DE have a lower-case form, 32 code points up. *)
Definition lower_char (c : ascii) : ascii :=
  let n := N_of_ascii c in
  if (((65 <=? n) && (n <=? 90)) || ((192 <=? n) && (n <=? 214))
      || ((216 <=? n) && (n <=? 222)))%N
  then ascii_of_N (n + 32) else c.

(** [s.lower()] *)
Fixpoint lower (s : string) : string :=
  match s with
  | "" => ""
  | String a rest => String (lower_char a) (lower rest)
  end.

(** [c.isspace()] for a character of a text string, which is what
    [strip], [lstrip] and [rstrip] remove: among the code points below 256,
    U+0009 to U+000D, U+001C to U+0020, U+0085 and U+00A0. *)
Definition isspace (c : ascii) : bool :=
  let n := N_of_ascii c in
  (((9 <=? n) && (n <=? 13)) || ((28 <=? n) && (n <=? 32))
   || (n =? 133) || (n =? 160))%N.

Fixpoint lstrip (s : string) : string :=
  match s with
  | "" => ""
  | String a rest => if isspace a then lstrip rest else s
  end.

Fixpoint rstrip (s : string) : string :=
  match s with
  | "" => ""
  | String a rest =>
      match rstrip rest with
      | "" => if isspace a then "" else String a ""
      | r => String a r
      end
  end.

(** A note as the formatter sees it: the identity [id(note)] that the
    running interpreter gives the object, and what its attributes and
    methods return. *)
Record NoteData : Type := mk_NoteData {
  category : string;
  level : string;
  subject : string;
  show_summary : string -> string;
  show_text : string -> string
}.

Record NoteObj : Type := mk_NoteObj {
  id : Z;
  data : NoteData
}.

(** What the formatter reads of a sub-request: [notes] is [None] when the
    object has no such attribute. *)
Record SubReq : Type := mk_SubReq {
  fetch_started : bool;
  sub_notes : option (list NoteObj)
}.

Record Resource : Type := mk_Resource {
  is_HttpResource : bool;
  notes : list NoteObj;
  subreqs : gmap string SubReq
}.

(** The formatter state these methods use. *)
Record Formatter : Type := mk_Formatter {
  lang : string;
  hidden_text : list (string * string);
  problems : list NoteObj
}.

Definition append_hidden (e : string * string) (self : Formatter) : Formatter :=
  mk_Formatter (lang self) (hidden_text self ++ [e])%list (problems self).

(** What [req_qs] reads of the formatter: the URI and the headers of the
    request of [self.resource], the check name of that resource ([None] or
    a string) and [self.kw.get('test_id')]. *)
Record Context : Set := mk_Context {
  request_uri : string;
  request_headers : list (string * string);
  resource_check_name : option string;
  test_id : option string
}.

(** The truth value of an argument that is [None] or a string. *)
Definition truthy (x : option string) : bool :=
  match x with
  | Some (String _ _) => true
  | _ => false
  end.

Section Formatters.
(** Values and functions of modules outside this one: the level and
    category constants of [redbot.speak], the names of the other checks,
    and of the library what the module imports first: [urlquote] is
    [urllib.parse.quote] with its [safe] argument, which quotes the UTF-8
    encoding of a text string and returns for every string of code points
    below 256; [urljoin_parse] is what [urllib.parse.urljoin] returns for a
    base and a reference that are both not empty, [None] where it raises
    [ValueError] (as for an invalid IPv6 URL); [fill] is
    [textwrap.TextWrapper(width, subsequent_indent, break_long_words).fill].
    [context] is what the formatter was made for. *)
Variable levels_BAD : string.
Variables categories_CONNEG categories_VALIDATION categories_RANGE : string.
Variables ConnegCheck_check_name ETagValidate_check_name
          RangeRequest_check_name : string.
Variable urlquote : forall (url safe : string), string.
Variable urljoin_parse : forall (base url : string), option string.
Variable context : Context.
Variable fill : forall (width : Z) (subsequent_indent : string) (value : string), string.

(** [urljoin(base, url)]: an empty base gives the reference and an empty
    reference gives the base, before anything is parsed. *)
Definition urljoin (base url : string) : result string :=
  match base, url with
  | "", _ => Ok url
  | _, "" => Ok base
  | _, _ =>
      match urljoin_parse base url with
      | Some joined => Ok joined
      | None => Raise ValueError
      end
  end.

Definition uri_gen_delims : string := ":/?#[]@".
Definition uri_sub_delims : string := "!$&'()*+,;=".

(** [unicode_url_escape]: URL escape a string, leaving alone what is
    encoded already. *)
Definition unicode_url_escape (url safe : string) : string :=
  urlquote url (safe +:+ "%~").

Definition e_query_arg (url : string) : string :=
  unicode_url_escape url "!$'()*+,:@/?".

(** The loop of [req_qs] over the headers of the request. *)
Fixpoint req_hdr_args (referer : bool) (hdrs : list (string * string))
    (out : list string) : list string :=
  match hdrs with
  | [] => out
  | (k, v) :: rest =>
      if referer && (lower k =? "referer")%string
      then req_hdr_args referer rest out
      else req_hdr_args referer rest
             (out ++ ["req_hdr=" +:+ e_query_arg k +:+ "%3A"
                      +:+ e_query_arg v])%list
  end.

(** [BaseHtmlFormatter.req_qs]: a query string that refers to another RED
    resource. *)
Definition req_qs (link check_name res_format : option string)
    (use_stored referer : bool) : result string :=
  let out := [] in
  let uri := request_uri context in
  out ←
    (if use_stored && truthy (test_id context)
     then Ok (out ++ ["id=" +:+ e_query_arg (default "" (test_id context))])%list
     else
       joined ← urljoin uri (if truthy link then default "" link else "");
       Ok (out ++ ["uri=" +:+ e_query_arg joined])%list);
  let out :=
    match request_headers context with
    | [] => out
    | hdrs => req_hdr_args referer hdrs out
    end in
  let out :=
    if referer then (out ++ ["req_hdr=Referer%3A" +:+ e_query_arg uri])%list
    else out in
  let out :=
    if truthy check_name
    then (out ++ ["check_name=" +:+ e_query_arg (default "" check_name)])%list
    else match resource_check_name context with
         | Some name => (out ++ ["check_name=" +:+ e_query_arg name])%list
         | None => out
         end in
  let out :=
    if truthy res_format
    then (out ++ ["format=" +:+ e_query_arg (default "" res_format)])%list
    else out in
  Ok (join "&" out).

Definition note_responses : list (string * list string) :=
  [(categories_CONNEG, [ConnegCheck_check_name]);
   (categories_VALIDATION,
    [ETagValidate_check_name; LmValidate.check_name]);
   (categories_RANGE, [RangeRequest_check_name])].

(** [d[k]] on a dict written as a literal: the last binding of an equal
    key wins. *)
Fixpoint dict_get {A : Type} (d : list (string * A)) (k : string) : option A :=
  match d with
  | [] => None
  | (k', v) :: rest =>
      match dict_get rest k with
      | Some v' => Some v'
      | None => if (k' =? k)%string then Some v else None
      end
  end.

(** The links to the sub-requests of a category. *)
Fixpoint subreq_links (resource : Resource) (check_names : list string)
    (out : list string) : result (list string) :=
  match check_names with
  | [] => Ok out
  | check_name :: rest =>
      match subreqs resource !! check_name with
      | None => Raise KeyError
      | Some sr =>
          if negb (fetch_started sr) then subreq_links resource rest out
          else
            qs ← req_qs None (Some check_name) None true true;
            let out :=
              (out ++ ["<span class=" +:+ dq +:+ "req_link" +:+ dq
                       +:+ "> (<a href=" +:+ dq +:+ "?" +:+ qs +:+ dq +:+ ">"
                       +:+ check_name +:+ " response</a>"])%list in
            let smsgs :=
              filter (fun note => level (data note) = levels_BAD)
                     (default [] (sub_notes sr)) in
            let out :=
              if (length smsgs =? 1)%nat
              then (out ++ [" - " +:+ str_int (Z.of_nat (length smsgs))
                            +:+ " warning" +:+ nl])%list
              else match smsgs with
                   | [] => out
                   | _ => (out ++ [" - " +:+ str_int (Z.of_nat (length smsgs))
                                   +:+ " warnings" +:+ nl])%list
                   end in
            subreq_links resource rest (out ++ [")</span>" +:+ nl])%list
      end
  end.

(** The list item written for a note of a category. *)
Definition category_item (lang : string) (note : NoteObj) : string :=
  "    <li class='" +:+ level (data note) +:+ " note' data-subject='"
    +:+ e_html (subject (data note)) +:+ "' data-name='noteid-"
    +:+ str_int (id note) +:+ "'>" +:+ nl
    +:+ "        <span>" +:+ e_html (show_summary (data note) lang)
    +:+ "</span>" +:+ nl +:+ "    </li>".

(** The loop over the notes of a category: one list item and one
    hidden-text entry per note. *)
Fixpoint category_notes (notes : list NoteObj) (out : list string)
    (self : Formatter) : list string * Formatter :=
  match notes with
  | [] => (out, self)
  | note :: rest =>
      let out := (out ++ [category_item (lang self) note])%list in
      let self :=
        append_hidden ("noteid-" +:+ str_int (id note),
                       show_text (data note) (lang self)) self in
      category_notes rest out self
  end.

Definition format_category (self : Formatter) (category_ : string)
    (resource : Resource) : result (string * Formatter) :=
  let notes_ :=
    filter (fun note => category (data note) = category_) (notes resource) in
  match notes_ with
  | [] => Ok (nl, self)
  | _ =>
      let out := ["<h3>" +:+ category_ +:+ nl] in
      out ←
        (if is_HttpResource resource
         then match dict_get note_responses category_ with
              | Some check_names => subreq_links resource check_names out
              | None => Ok out
              end
         else Ok out);
      let out := (out ++ ["</h3>" +:+ nl; "<ul>" +:+ nl])%list in
      let '(out, self) := category_notes notes_ out self in
      let out := (out ++ ["</ul>" +:+ nl])%list in
      Ok (join nl out, self)
  end.




(** *** [HeaderPresenter] *)

(** [HeaderPresenter.I]: wrap a line to fit in the header box. *)
Definition I (value : string) (sub_width : Z) : string :=
  let hdr_sz := 75 in
  let sw := hdr_sz - Z.min (hdr_sz - 1) sub_width in
  fill sw (str_mul " " 8) value.

Definition len (s : string) : Z := Z.of_nat (String.length s).

Definition BARE_URI (name value : string) : result string :=
  let value := rstrip value in
  let svalue := lstrip value in
  let space := len value - len svalue in
  qs ← req_qs (Some svalue) None None false true;
  Ok (str_mul " " (Z.to_nat space) +:+ "<a href=" +:+ dq +:+ "?" +:+ qs
        +:+ dq +:+ ">" +:+ I (e_html svalue) (len name) +:+ "</a>").

(** What [getattr(self, token)] can find on a [HeaderPresenter] for a
    token that does not start with an underscore: the instance attribute
    set by [__init__] and the names bound in the class body. Every other
    attribute of the object ([__init__], [__doc__], those inherited from
    [object]) starts with an underscore. *)
Inductive attribute : Set :=
| attr_formatter
| attr_Show
| attr_BARE_URI
| attr_content_location
| attr_location
| attr_x_xrds_location
| attr_I.

Definition attributes : list (string * attribute) :=
  [("formatter", attr_formatter);
   ("Show", attr_Show);
   ("BARE_URI", attr_BARE_URI);
   ("content_location", attr_content_location);
   ("location", attr_location);
   ("x_xrds_location", attr_x_xrds_location);
   ("I", attr_I)].

Definition getattr (name_token : string) : option attribute :=
  dict_get attributes name_token.

Definition hasattr (name_token : string) : bool :=
  match getattr name_token with
  | Some _ => true
  | None => false
  end.

(** [getattr(self, token)(name, value)], where [name] is already in
    lower case. The formatter instance is not callable; [Show] would
    call itself again with the same arguments without end; [I] is a
    static method, so it gets [name] as the value to wrap and [value] as
    the width, and a string compares greater than any number. *)
Definition call (a : attribute) (name value : string) : result string :=
  match a with
  | attr_formatter => Raise TypeError
  | attr_Show => Raise RuntimeError
  | attr_BARE_URI | attr_content_location | attr_location
  | attr_x_xrds_location => BARE_URI name value
  | attr_I => Ok (fill 1 (str_mul " " 8) name)
  end.

Definition Show (name value : string) : result string :=
  let name := lower name in
  let name_token := replace "-" "_" name in
  match name_token with
  | "" => Raise IndexError
  | String c _ =>
      if negb (Ascii.eqb c "_") && hasattr name_token
      then match getattr name_token with
           | Some a => call a name value
           | None => Raise AttributeError
           end
      else Ok (I (e_html value) (len name))
  end.




End Formatters.

End Html.

(** ** [redbot/formatter/html.py]: escaping for scripts, the response block *)

Module HtmlResponse.
Import Py Html.

(** The backslash. *)
Definition bs : string := String "092"%char "".

(** [e_js]: make a string safe for writing into a double-quoted JavaScript
    string. *)
Definition e_js (instr : string) : string :=
  match instr with
  | "" => ""
  | _ =>
      let instr := replace "092" (bs +:+ bs) instr in
      let instr := replace "034" (bs +:+ dq) instr in
      replace "<" (bs +:+ "x3c") instr
  end.

(** What the formatter reads of the response of a resource. *)
Record Response : Set := mk_Response {
  version : string;
  status_code : string;
  status_phrase : string;
  headers : list (string * string)
}.

Record Resource : Set := mk_Resource {
  response : Response
}.

(** [x in xs] on a list of strings. *)
Fixpoint contains (xs : list string) (x : string) : bool :=
  match xs with
  | [] => false
  | y :: rest => (y =? x)%string || contains rest x
  end.

Section Formatters.
(** Functions of other modules: the description that
    [HeaderProcessor.find_header_handler(name)] has for a header ([None] or
    a string), [markdown] applied to the description with the field name
    filled in, and what the header presenter needs. *)
Variable description : string -> option string.
Variable html_desc : forall (header_desc name : string), string.
Variable urlquote : forall (url safe : string), string.
Variable urljoin_parse : forall (base url : string), option string.
Variable context : Context.
Variable fill : forall (width : Z) (subsequent_indent : string) (value : string), string.

(** The span written for a header. *)
Definition header_span (offset : Z) (name shown : string) : string :=
  "    <span data-offset='" +:+ str_int offset +:+ "' data-name='"
    +:+ e_html (lower name) +:+ "' class='hdr'>" +:+ e_html name +:+ ":"
    +:+ shown +:+ "</span>".

Definition format_header (self : Formatter) (name value : string)
    (offset : Z) : result (string * Formatter) :=
  let token_name := "header-" +:+ lower name in
  let self :=
    match description name with
    | Some header_desc =>
        if negb (header_desc =? "")%string
           && negb (contains (hidden_text self).*1 token_name)
        then append_hidden (token_name, html_desc header_desc name) self
        else self
    | None => self
    end in
  shown ← Show urlquote urljoin_parse context fill name value;
  Ok (header_span offset name shown, self).

(** The loop of [format_response] over the headers of the response. *)
Fixpoint response_headers (hdrs : list (string * string)) (offset : Z)
    (out : list string) (self : Formatter)
    : result (list string * Formatter) :=
  match hdrs with
  | [] => Ok (out, self)
  | (name, value) :: rest =>
      let offset := offset + 1 in
      '(h, self) ← format_header self name value offset;
      response_headers rest offset (out ++ [h])%list self
  end.

Definition format_response (self : Formatter) (resource : Resource)
    : result (string * Formatter) :=
  '(hdrs, self) ← response_headers (headers (response resource)) 0 [] self;
  Ok ("    <span class='status'>HTTP/" +:+ e_html (version (response resource))
        +:+ " " +:+ e_html (status_code (response resource)) +:+ " "
        +:+ e_html (status_phrase (response resource)) +:+ "</span>" +:+ nl
        +:+ join nl hdrs,
      self).

End Formatters.

End HtmlResponse.

(** * Properties *)

(** ** The runtime: calendar and number formatting *)

Module PyFacts.
Import Py.

(** A check of a predicate on [n] consecutive integers from [lo] on. *)
Fixpoint all_from (P : Z -> bool) (lo : Z) (n : nat) : bool :=
  match n with
  | O => true
  | S k => P lo && all_from P (lo + 1) k
  end.

Lemma range_check (P : Z -> bool) (n : nat) : forall lo,
  all_from P lo n = true ->
  forall k, lo <= k < lo + Z.of_nat n -> P k = true.
Proof.
  induction n as [|n IH]; intros lo Hall k Hk; [lia|].
  simpl in Hall. apply andb_true_iff in Hall as [Hlo Hrest].
  destruct (Z.eq_dec k lo) as [->|Hne]; [exact Hlo|].
  apply (IH (lo + 1)); [exact Hrest | lia].
Qed.

(** The month and the day of the month of day [n] of a year, counted from 0. *)
Definition month_day (leapyear : bool) (n : Z) : Z * Z :=
  let m := Z.shiftr (n + 50) 5 in
  let preceding :=
    table _DAYS_BEFORE_MONTH m + (if (2 <? m) && leapyear then 1 else 0) in
  let '(m, preceding) :=
    if n <? preceding
    then (m - 1,
          preceding - (table _DAYS_IN_MONTH (m - 1)
                       + (if (m - 1 =? 2) && leapyear then 1 else 0)))
    else (m, preceding) in
  (m, n - preceding + 1).

Definition month_day_ok (leapyear : bool) (n : Z) : bool :=
  let '(m, d) := month_day leapyear n in
  (1 <=? m) && (m <=? 12) && (1 <=? d) && (d <=? 31).

Lemma month_day_range leapyear n :
  0 <= n < 365 ->
  1 <= (month_day leapyear n).1 <= 12 /\ 1 <= (month_day leapyear n).2 <= 31.
Proof.
  intros Hn.
  assert (H : month_day_ok leapyear n = true).
  { apply (range_check (month_day_ok leapyear) 365 0); [|lia].
    destruct leapyear; vm_compute; reflexivity. }
  unfold month_day_ok in H. destruct (month_day leapyear n) as [m d].
  simpl. lia.
Qed.

Definition month_day_inv (leapyear : bool) (n : Z) : bool :=
  let '(m, d) := month_day leapyear n in
  table _DAYS_BEFORE_MONTH m + (if (2 <? m) && leapyear then 1 else 0) + d
  =? n + 1.

Lemma month_day_inverse leapyear n :
  0 <= n < 365 ->
  table _DAYS_BEFORE_MONTH (month_day leapyear n).1
  + (if (2 <? (month_day leapyear n).1) && leapyear then 1 else 0)
  + (month_day leapyear n).2 = n + 1.
Proof.
  intros Hn.
  assert (H : month_day_inv leapyear n = true).
  { apply (range_check (month_day_inv leapyear) 365 0); [|lia].
    destruct leapyear; vm_compute; reflexivity. }
  unfold month_day_inv in H. destruct (month_day leapyear n) as [m d].
  simpl. lia.
Qed.

(** The pieces of an ordinal: 400-year cycles, centuries, 4-year cycles,
    years, and the day of the year. *)
Lemma ordinal_pieces n :
  exists q n100 n4 n1 r,
    n - 1 = _DI400Y * q + _DI100Y * n100 + _DI4Y * n4 + 365 * n1 + r
    /\ 0 <= n100 <= 4 /\ 0 <= n4 <= 24 /\ 0 <= n1 <= 4 /\ 0 <= r < 365
    /\ (n100 = 4 -> n4 = 0 /\ n1 = 0 /\ r = 0)
    /\ (n1 = 4 -> n4 <= 23 /\ r = 0)
    /\ _ord2ymd n =
       if (n1 =? 4) || (n100 =? 4)
       then (q * 400 + 1 + n100 * 100 + n4 * 4 + n1 - 1, 12, 31)
       else
         let leapyear := (n1 =? 3) && (negb (n4 =? 24) || (n100 =? 3)) in
         (q * 400 + 1 + n100 * 100 + n4 * 4 + n1,
          (month_day leapyear r).1, (month_day leapyear r).2).
Proof.
  exists ((n - 1) / _DI400Y), ((n - 1) mod _DI400Y / _DI100Y),
    ((n - 1) mod _DI400Y mod _DI100Y / _DI4Y),
    ((n - 1) mod _DI400Y mod _DI100Y mod _DI4Y / 365),
    ((n - 1) mod _DI400Y mod _DI100Y mod _DI4Y mod 365).
  unfold _DI400Y, _DI100Y, _DI4Y.
  repeat split; try (Z.div_mod_to_equations; lia).
  unfold _ord2ymd, _DI400Y, _DI100Y, _DI4Y. cbv zeta.
  set (r := (((n - 1) mod 146097) mod 36524 mod 1461) mod 365).
  set (leapyear := (_ =? 3) && (negb _ || _)).
  set (special := (_ =? 4) || (_ =? 4)).
  destruct special; [reflexivity|].
  unfold month_day. cbv zeta. destruct (r <? _); reflexivity.
Qed.

Lemma _ord2ymd_range n y m d :
  _ord2ymd n = (y, m, d) -> 1 <= m <= 12 /\ 1 <= d <= 31.
Proof.
  destruct (ordinal_pieces n)
    as (q & n100 & n4 & n1 & r & _ & _ & _ & _ & Hr & _ & _ & E).
  rewrite E. destruct (_ || _).
  - intros [= <- <- <-]. lia.
  - cbv zeta. intros [= <- <- <-]. apply month_day_range, Hr.
Qed.

Lemma utcfromtimestamp_range t l_m :
  utcfromtimestamp t = Ok l_m ->
  1 <= year l_m <= 9999 /\ 1 <= month l_m <= 12 /\ 1 <= day l_m <= 31
  /\ 0 <= hour l_m < 24 /\ 0 <= minute l_m < 60 /\ 0 <= second l_m < 60.
Proof.
  unfold utcfromtimestamp. cbv zeta.
  destruct (_ord2ymd _) as [[y m] d] eqn:E.
  apply _ord2ymd_range in E.
  destruct (_ && _) eqn:Hy; [|discriminate].
  intros [= <-]. simpl. unfold MINYEAR, MAXYEAR in Hy.
  pose proof (Z.mod_pos_bound t 86400 ltac:(lia)) as Hs.
  repeat split; try lia.
  - apply Z.div_pos; lia.
  - apply Z.div_lt_upper_bound; lia.
  - apply Z.div_pos; [apply Z.mod_pos_bound|]; lia.
  - apply Z.div_lt_upper_bound; [lia|]. pose proof (Z.mod_pos_bound (t mod 86400) 3600 ltac:(lia)). lia.
  - apply Z.mod_pos_bound; lia.
  - apply Z.mod_pos_bound; lia.
Qed.

(** The decimal digit [d] as a character. *)
Definition digit (d : Z) : ascii := ascii_of_N (48 + Z.to_N d).

(** A number below 100 written with exactly two digits, and a number below
    10000 written with exactly four. *)
Definition two_digits (n : Z) : string :=
  String (digit (n / 10)) (String (digit (n mod 10)) "").
Definition four_digits (n : Z) : string :=
  String (digit (n / 1000)) (String (digit (n / 100 mod 10))
    (String (digit (n / 10 mod 10)) (String (digit (n mod 10)) ""))).

Lemma fmt_d_2 n : 0 <= n < 100 -> fmt_d 2 n = two_digits n.
Proof.
  intros Hn. apply String.eqb_eq.
  apply (range_check (fun k => (fmt_d 2 k =? two_digits k)%string) 100 0);
    [vm_compute; reflexivity | lia].
Qed.

Lemma fmt_d_4 n : 0 <= n < 10000 -> fmt_d 4 n = four_digits n.
Proof.
  intros Hn. apply String.eqb_eq.
  apply (range_check (fun k => (fmt_d 4 k =? four_digits k)%string)
           (Z.to_nat 10000) 0);
    [vm_compute; reflexivity | lia].
Qed.

Lemma weekday_range l_m : 0 <= weekday l_m < 7.
Proof. unfold weekday. apply Z.mod_pos_bound. lia. Qed.




Lemma _is_leap_pieces q n100 n4 n1 :
  0 <= n100 <= 3 -> 0 <= n4 <= 24 -> 0 <= n1 <= 3 ->
  _is_leap (q * 400 + 1 + n100 * 100 + n4 * 4 + n1)
  = (n1 =? 3) && (negb (n4 =? 24) || (n100 =? 3)).
Proof.
  intros H100 H4 H1. unfold _is_leap.
  repeat match goal with
         | |- context [?a =? ?b] => destruct (Z.eqb_spec a b)
         end; cbn; try reflexivity; exfalso;
    Z.div_mod_to_equations; lia.
Qed.

(** [_ymd2ord] undoes [_ord2ymd]. *)
Lemma _ymd2ord_ord2ymd n y m d :
  _ord2ymd n = (y, m, d) -> _ymd2ord y m d = n.
Proof.
  destruct (ordinal_pieces n)
    as (q & n100 & n4 & n1 & r & Hn & H100 & H4 & H1 & Hr & Hc & Hy & E).
  rewrite E. clear E. unfold _DI400Y, _DI100Y, _DI4Y in Hn.
  destruct ((n1 =? 4) || (n100 =? 4)) eqn:Hs.
  - intros [= <- <- <-].
    assert (Hl : _is_leap (q * 400 + 1 + n100 * 100 + n4 * 4 + n1 - 1) = true).
    { unfold _is_leap. apply orb_true_iff in Hs as [Hs | Hs];
        apply Z.eqb_eq in Hs;
        repeat match goal with
               | |- context [?a =? ?b] => destruct (Z.eqb_spec a b)
               end; cbn; try reflexivity; exfalso;
        Z.div_mod_to_equations; lia. }
    unfold _ymd2ord, _days_before_month, _days_before_year. rewrite Hl.
    change (table _DAYS_BEFORE_MONTH 12) with 334.
    change (2 <? 12) with true. cbn [andb].
    apply orb_true_iff in Hs as [Hs | Hs]; apply Z.eqb_eq in Hs;
      Z.div_mod_to_equations; lia.
  - apply orb_false_iff in Hs as [Hs1 Hs2].
    apply Z.eqb_neq in Hs1, Hs2. cbv zeta. intros [= <- <- <-].
    unfold _ymd2ord, _days_before_month, _days_before_year.
    rewrite _is_leap_pieces by lia.
    pose proof (month_day_inverse
                  ((n1 =? 3) && (negb (n4 =? 24) || (n100 =? 3))) r Hr) as Hi.
    Z.div_mod_to_equations. lia.
Qed.

(** The weekday of a timestamp follows from its day count: the epoch was a
    Thursday. *)
Lemma weekday_utcfromtimestamp t l_m :
  utcfromtimestamp t = Ok l_m -> weekday l_m = (t / 86400 + 3) mod 7.
Proof.
  unfold utcfromtimestamp. cbv zeta.
  destruct (_ord2ymd _) as [[y m] d] eqn:E.
  apply _ymd2ord_ord2ymd in E.
  destruct (_ && _); [|discriminate].
  intros [= <-]. unfold weekday, toordinal. cbn [year month day].
  rewrite E. unfold EPOCH_ORDINAL. Z.div_mod_to_equations. lia.
Qed.
End PyFacts.

(** ** The Last-Modified validation check *)

Module LmValidateFacts.
Import Py PyFacts Speak Message LmValidate.

(** *** The request headers of the probe *)

Lemma getitem_weekdays i :
  0 <= i < 7 ->
  exists wd, getitem _weekdays i = Ok wd /\ In wd _weekdays
             /\ String.length wd = 3%nat.
Proof.
  intros Hi.
  assert (Hc : i = 0 \/ i = 1 \/ i = 2 \/ i = 3 \/ i = 4 \/ i = 5 \/ i = 6)
    by lia.
  repeat (destruct Hc as [-> | Hc]); try subst i;
    (eexists; split; [reflexivity | split; [simpl; tauto | reflexivity]]).
Qed.

Lemma getitem_months i :
  1 <= i <= 12 ->
  exists mon, getitem _months i = Ok (Some mon) /\ In (Some mon) _months
              /\ String.length mon = 3%nat.
Proof.
  intros Hi.
  assert (Hc : i = 1 \/ i = 2 \/ i = 3 \/ i = 4 \/ i = 5 \/ i = 6 \/ i = 7
               \/ i = 8 \/ i = 9 \/ i = 10 \/ i = 11 \/ i = 12) by lia.
  repeat (destruct Hc as [-> | Hc]); try subst i;
    (eexists; split; [reflexivity | split; [simpl; tauto | reflexivity]]).
Qed.

(** The fixed-width rendering of a date, written out field by field. *)
Definition http_date (wd mon : string) (l_m : datetime) : string :=
  wd +:+ ", " +:+ two_digits (day l_m) +:+ " " +:+ mon +:+ " "
     +:+ four_digits (year l_m) +:+ " " +:+ two_digits (hour l_m) +:+ ":"
     +:+ two_digits (minute l_m) +:+ ":" +:+ two_digits (second l_m)
     +:+ " GMT".

Lemma http_date_length wd mon l_m :
  String.length wd = 3%nat -> String.length mon = 3%nat ->
  String.length (http_date wd mon l_m) = 29%nat.
Proof.
  destruct wd as [|a [|b [|c [|]]]]; try discriminate.
  destruct mon as [|a' [|b' [|c' [|]]]]; try discriminate.
  reflexivity.
Qed.

Lemma date_str_fixed wd mon l_m t :
  utcfromtimestamp t = Ok l_m ->
  date_str wd (Some mon) l_m = http_date wd mon l_m.
Proof.
  intros Hv. apply utcfromtimestamp_range in Hv.
  unfold date_str, http_date, fmt_s.
  rewrite !fmt_d_2, fmt_d_4 by lia. reflexivity.
Qed.

Lemma modify_req_hdrs_valid self t l_m :
  parsed_headers (Resource.response (base self)) !! "last-modified" = Some t ->
  utcfromtimestamp t = Ok l_m ->
  exists wd mon,
    In wd _weekdays /\ In (Some mon) _months
    /\ getitem _weekdays ((t / 86400 + 3) mod 7) = Ok wd
    /\ getitem _months (month l_m) = Ok (Some mon)
    /\ String.length (http_date wd mon l_m) = 29%nat
    /\ modify_req_hdrs self =
       Ok (headers (Resource.request (base self))
             ++ [("If-Modified-Since", http_date wd mon l_m)])%list.
Proof.
  intros Hlm Hv.
  destruct (getitem_weekdays (weekday l_m) (weekday_range l_m))
    as (wd & Hwd & Hwdin & Hwdlen).
  pose proof (utcfromtimestamp_range _ _ Hv) as Hr.
  destruct (getitem_months (month l_m)) as (mon & Hmon & Hmonin & Hmonlen);
    [lia|].
  exists wd, mon. repeat split; try assumption.
  - rewrite <- (weekday_utcfromtimestamp _ _ Hv). exact Hwd.
  - apply http_date_length; assumption.
  - unfold modify_req_hdrs. rewrite Hlm, Hv. cbn.
    rewrite Hwd. cbn. rewrite Hmon. cbn.
    rewrite (date_str_fixed _ _ _ _ Hv). reflexivity.
Qed.

(** [utcfromtimestamp] raises nothing but [ValueError]. *)
Lemma utcfromtimestamp_cases t :
  (exists l_m, utcfromtimestamp t = Ok l_m)
  \/ utcfromtimestamp t = Raise ValueError.
Proof.
  unfold utcfromtimestamp. cbv zeta.
  destruct (_ord2ymd _) as [[y m] d]. destruct (_ && _); eauto.
Qed.

(** The response of the resource with a [Last-Modified] of [t] seconds. *)
Definition response_with_lm (t : Z) : HttpResponse :=
  mk_HttpResponse "200" {[ "last-modified" := t ]} "d41d8cd9" true None.

Definition subreq_with_lm (t : Z) : SubRequest :=
  mk_SubRequest
    (Resource.mk_HttpResource
       (mk_HttpRequest "GET" "http://example.com/"
          [("User-Agent", "RED"); ("Accept-Encoding", "gzip")])
       (response_with_lm t) None [])
    (mk_HttpRequest "GET" "http://example.com/" [])
    (mk_HttpResponse "" ∅ "" false None)
    false.

(** C3: for every valid modification timestamp the probe carries an
    [If-Modified-Since] header whose value is the weekday (of the day the
    timestamp falls on) and the month from the three-letter tables, day,
    hour, minute and second on two digits, the year on four, and the suffix
    [GMT], 29 characters in all; the timestamp of 2023-03-05T07:08:09 UTC
    gives [Sun, 05 Mar 2023 07:08:09 GMT]. *)
Theorem if_modified_since_format :
  (forall self t l_m,
      parsed_headers (Resource.response (base self)) !! "last-modified"
      = Some t ->
      utcfromtimestamp t = Ok l_m ->
      exists wd mon,
        In wd _weekdays /\ In (Some mon) _months
        /\ getitem _weekdays ((t / 86400 + 3) mod 7) = Ok wd
        /\ getitem _months (month l_m) = Ok (Some mon)
        /\ String.length (http_date wd mon l_m) = 29%nat
        /\ modify_req_hdrs self =
           Ok (headers (Resource.request (base self))
                 ++ [("If-Modified-Since", http_date wd mon l_m)])%list)
  /\ (forall self,
         parsed_headers (Resource.response (base self)) !! "last-modified"
         = Some 1678000089 ->
         utcfromtimestamp 1678000089 = Ok (mk_datetime 2023 3 5 7 8 9)
         /\ modify_req_hdrs self =
            Ok (headers (Resource.request (base self))
                  ++ [("If-Modified-Since",
                       "Sun, 05 Mar 2023 07:08:09 GMT")])%list).
Proof.
  split.
  - apply modify_req_hdrs_valid.
  - intros self Hlm. split; [reflexivity|].
    unfold modify_req_hdrs. rewrite Hlm. reflexivity.
Qed.

Lemma if_modified_since_format_witness :
  (exists wd mon,
      In wd _weekdays /\ In (Some mon) _months
      /\ getitem _weekdays ((1678000089 / 86400 + 3) mod 7) = Ok wd
      /\ getitem _months (month (mk_datetime 2023 3 5 7 8 9)) = Ok (Some mon)
      /\ String.length (http_date wd mon (mk_datetime 2023 3 5 7 8 9))
         = 29%nat
      /\ modify_req_hdrs (subreq_with_lm 1678000089) =
         Ok (headers (Resource.request (base (subreq_with_lm 1678000089)))
               ++ [("If-Modified-Since",
                    http_date wd mon (mk_datetime 2023 3 5 7 8 9))])%list)
  /\ modify_req_hdrs (subreq_with_lm 1678000089) =
     Ok [("User-Agent", "RED"); ("Accept-Encoding", "gzip");
         ("If-Modified-Since", "Sun, 05 Mar 2023 07:08:09 GMT")].
Proof.
  split.
  - exact (proj1 if_modified_since_format (subreq_with_lm 1678000089)
             1678000089 (mk_datetime 2023 3 5 7 8 9) eq_refl eq_refl).
  - exact (proj2 (proj2 if_modified_since_format (subreq_with_lm 1678000089)
                    eq_refl)).
Defined.

(** C5: when the last-modified value of the base response cannot be
    turned into a date, the probe gets the headers of the base request
    and nothing else; building the headers does not fail. *)
Theorem modify_req_hdrs_bad_timestamp self t :
  parsed_headers (Resource.response (base self)) !! "last-modified" = Some t ->
  (forall l_m, utcfromtimestamp t <> Ok l_m) ->
  modify_req_hdrs self = Ok (headers (Resource.request (base self))).
Proof.
  intros Hlm Hbad. unfold modify_req_hdrs. rewrite Hlm.
  destruct (utcfromtimestamp_cases t) as [[l_m Hok] | Herr].
  - destruct (Hbad l_m Hok).
  - rewrite Herr. reflexivity.
Qed.

Lemma modify_req_hdrs_bad_timestamp_witness :
  modify_req_hdrs (subreq_with_lm 253402300800) =
  Ok [("User-Agent", "RED"); ("Accept-Encoding", "gzip")].
Proof.
  apply (modify_req_hdrs_bad_timestamp (subreq_with_lm 253402300800)
           253402300800).
  - reflexivity.
  - intros l_m. vm_compute. discriminate.
Defined.

(** C10: the headers of the probe start with the headers of the base
    request, in order and unchanged, followed by at most one pair, the
    [If-Modified-Since] header. *)
Theorem modify_req_hdrs_frame self :
  exists rest,
    modify_req_hdrs self
    = Ok (headers (Resource.request (base self)) ++ rest)%list
    /\ (rest = [] \/ exists v, rest = [("If-Modified-Since", v)]).
Proof.
  destruct (parsed_headers (Resource.response (base self))
              !! "last-modified") as [t|] eqn:Hlm.
  - destruct (utcfromtimestamp_cases t) as [[l_m Hok] | Herr].
    + destruct (modify_req_hdrs_valid self t l_m Hlm Hok)
        as (wd & mon & _ & _ & _ & _ & _ & E).
      eexists. split; [exact E|]. right. eexists. reflexivity.
    + exists []. split; [|left; reflexivity].
      unfold modify_req_hdrs. rewrite Hlm, Herr, app_nil_r. reflexivity.
  - exists []. split; [|left; reflexivity].
    unfold modify_req_hdrs. rewrite Hlm, app_nil_r. reflexivity.
Qed.

(** *** Applicability *)

(** C6: without a parsed [last-modified] header on the base response the
    check is not applicable: [preflight] answers false and sets
    [ims_support] to false, no note is added, and the check starts no
    fetch; with the header it answers true and changes nothing. *)
Theorem preflight_applicability :
  (forall self,
      parsed_headers (Resource.response (base self)) !! "last-modified" = None ->
      (preflight self).1 = false
      /\ Resource.ims_support (base (preflight self).2) = Some false
      /\ Resource.notes (base (preflight self).2) = Resource.notes (base self)
      /\ exists self',
          check self = Ok self'
          /\ fetch_started self' = fetch_started self
          /\ request self' = request self
          /\ Resource.notes (base self') = Resource.notes (base self))
  /\ (forall self t,
         parsed_headers (Resource.response (base self)) !! "last-modified"
         = Some t ->
         preflight self = (true, self)).
Proof.
  split.
  - intros self Hlm. unfold check, preflight, has_key. rewrite Hlm. cbn.
    repeat split. eexists. repeat split.
  - intros self t Hlm. unfold preflight, has_key. rewrite Hlm. reflexivity.
Qed.

(** A probe for a resource without [Last-Modified]. *)
Definition subreq_without_lm : SubRequest :=
  mk_SubRequest
    (Resource.mk_HttpResource
       (mk_HttpRequest "GET" "http://example.com/" [("User-Agent", "RED")])
       (mk_HttpResponse "200" {[ "etag" := 0 ]} "d41d8cd9" true None)
       None [])
    (mk_HttpRequest "GET" "http://example.com/" [])
    (mk_HttpResponse "" ∅ "" false None)
    false.

Lemma preflight_applicability_witness :
  ((preflight subreq_without_lm).1 = false
   /\ Resource.ims_support (base (preflight subreq_without_lm).2) = Some false
   /\ Resource.notes (base (preflight subreq_without_lm).2) = []
   /\ exists self',
       check subreq_without_lm = Ok self'
       /\ fetch_started self' = false
       /\ request self' = request subreq_without_lm
       /\ Resource.notes (base self') = [])
  /\ preflight (subreq_with_lm 1678000089)
     = (true, subreq_with_lm 1678000089).
Proof.
  split.
  - exact (proj1 preflight_applicability subreq_without_lm eq_refl).
  - exact (proj2 preflight_applicability (subreq_with_lm 1678000089)
             1678000089 eq_refl).
Defined.

(** *** Classification of the probe response *)

(** The probe of [self] with another response. *)
Definition with_response (r : HttpResponse) (self : SubRequest) : SubRequest :=
  mk_SubRequest (base self) (request self) r (fetch_started self).

(** An incomplete probe response that carries its error gives exactly one
    note, of level [BAD], with the description of the error; the call
    returns, and [ims_support] keeps its value. *)
Lemma done_incomplete self err :
  complete (response self) = false ->
  http_error (response self) = Some err ->
  exists self',
    done self = Ok self'
    /\ Resource.notes (base self')
       = (Resource.notes (base self)
            ++ [mk_Note LM_SUBREQ_PROBLEM "" [("problem", desc err)]])%list
    /\ level LM_SUBREQ_PROBLEM = Some BAD
    /\ Resource.ims_support (base self') = Resource.ims_support (base self).
Proof.
  intros Hc He. unfold done. rewrite Hc, He. cbn.
  eexists. repeat split.
Qed.

Definition timed_out : HttpResponse :=
  mk_HttpResponse "" ∅ "" false (Some (mk_HttpError "read timeout")).

Lemma done_incomplete_witness :
  exists self',
    done (with_response timed_out (subreq_with_lm 1678000089)) = Ok self'
    /\ Resource.notes (base self')
       = [mk_Note LM_SUBREQ_PROBLEM "" [("problem", "read timeout")]]
    /\ level LM_SUBREQ_PROBLEM = Some BAD
    /\ Resource.ims_support (base self') = None.
Proof.
  exact (done_incomplete (with_response timed_out (subreq_with_lm 1678000089))
           (mk_HttpError "read timeout") eq_refl eq_refl).
Defined.

(** What a global timeout leaves behind: an incomplete response on which no
    error was recorded ([http_error] is [None]). *)
Definition global_timeout : HttpResponse :=
  mk_HttpResponse "" ∅ "" false None.

(** C4: on an incomplete probe response that carries no error, [done]
    reads [self.response.http_error.desc] on [None] and raises
    [AttributeError]: the call does not return, so no [BAD] note (and no
    note at all) is added for this probe. *)
Theorem done_incomplete_without_error self :
  complete (response self) = false ->
  http_error (response self) = None ->
  done self = Raise AttributeError
  /\ forall self', done self <> Ok self'.
Proof.
  intros Hc He. unfold done. rewrite Hc, He. cbn.
  split; [reflexivity | discriminate].
Qed.

Lemma done_incomplete_without_error_witness :
  done (with_response global_timeout (subreq_with_lm 1678000089))
  = Raise AttributeError
  /\ forall self',
      done (with_response global_timeout (subreq_with_lm 1678000089))
      <> Ok self'.
Proof.
  exact (done_incomplete_without_error
           (with_response global_timeout (subreq_with_lm 1678000089))
           eq_refl eq_refl).
Defined.

(** The headers that a 304 response should still carry. *)
Definition hdrs_304 : list string :=
  ["cache-control"; "content-location"; "etag"; "expires"; "vary"].

(** The note that names a header missing from the 304 response. *)
Definition missing_note (hdr : string) : Note :=
  mk_Note MISSING_HDRS_304 hdr
    [("missing_hdrs", hdr); ("subreq_type", "If-Modified-Since")].

Definition absent (r : HttpResponse) (hdr : string) : bool :=
  negb (has_key (parsed_headers r) hdr).

(** The notes of [l] that name the header [hdr]. *)
Definition naming (hdr : string) (l : list Note) : list Note :=
  List.filter (fun n => (subject n =? hdr)%string) l.

Lemma check_missing_hdrs_spec hdrs : forall self,
  let self' :=
    check_missing_hdrs hdrs MISSING_HDRS_304 "If-Modified-Since" self in
  Resource.notes (base self')
  = (Resource.notes (base self)
       ++ map missing_note (List.filter (absent (response self)) hdrs))%list
  /\ Resource.ims_support (base self') = Resource.ims_support (base self)
  /\ response self' = response self.
Proof.
  induction hdrs as [|hdr hdrs IH]; intros self; cbn.
  - rewrite app_nil_r. auto.
  - unfold absent at 1.
    destruct (has_key (parsed_headers (response self)) hdr); cbn.
    + apply IH.
    + specialize (IH (add_base_note hdr MISSING_HDRS_304
                        [("missing_hdrs", hdr);
                         ("subreq_type", "If-Modified-Since")] self)).
      cbn in IH. destruct IH as (Hn & Hi & Hr).
      rewrite Hn, Hi, Hr, <- app_assoc. auto.
Qed.

Lemma naming_missing hdr r :
  In hdr hdrs_304 ->
  length (naming hdr (map missing_note (List.filter (absent r) hdrs_304)))
  = if absent r hdr then 1%nat else 0%nat.
Proof.
  intros Hin. unfold hdrs_304 in *. cbn [List.filter].
  destruct (absent r "cache-control") eqn:H1,
           (absent r "content-location") eqn:H2,
           (absent r "etag") eqn:H3,
           (absent r "expires") eqn:H4,
           (absent r "vary") eqn:H5;
    cbn in Hin; intuition subst;
    rewrite ?H1, ?H2, ?H3, ?H4, ?H5; reflexivity.
Qed.

Lemma missing_notes_NoDup r :
  NoDup (map missing_note (List.filter (absent r) hdrs_304)).
Proof.
  apply NoDup_fmap_2.
  - intros a b [= E]. exact E.
  - apply NoDup_ListNoDup, List.NoDup_filter, NoDup_ListNoDup.
    apply (bool_decide_unpack (NoDup hdrs_304)). vm_compute. exact Logic.I.
Qed.

(** C1: a complete probe response with status 304 sets [ims_support] to
    true and gives the [IMS_304] note, of level [GOOD], followed by one
    note for each of the five headers that the probe response lacks and
    nothing else: the notes are pairwise distinct and exactly one of them
    names each missing header. *)
Theorem done_304 self :
  complete (response self) = true ->
  status_code (response self) = "304" ->
  exists self',
    done self = Ok self'
    /\ Resource.ims_support (base self') = Some true
    /\ level IMS_304 = Some GOOD
    /\ Resource.notes (base self')
       = (Resource.notes (base self)
            ++ mk_Note IMS_304 "header-last-modified" []
            :: map missing_note
                 (List.filter (absent (response self)) hdrs_304))%list
    /\ NoDup (mk_Note IMS_304 "header-last-modified" []
              :: map missing_note
                   (List.filter (absent (response self)) hdrs_304))
    /\ forall hdr,
        In hdr hdrs_304 ->
        length (naming hdr
                  (mk_Note IMS_304 "header-last-modified" []
                   :: map missing_note
                        (List.filter (absent (response self)) hdrs_304)))
        = if absent (response self) hdr then 1%nat else 0%nat.
Proof.
  intros Hc Hs. unfold done. rewrite Hc, Hs. cbn [negb String.eqb].
  change ("304" =? "304")%string with true. cbv iota.
  eexists. split; [reflexivity|].
  match goal with
  | |- context [check_missing_hdrs ?h _ _ ?s] =>
      destruct (check_missing_hdrs_spec h s) as (Hn & Hi & _)
  end.
  split; [rewrite Hi; reflexivity|].
  split; [reflexivity|].
  split; [rewrite Hn; cbn; rewrite <- app_assoc; reflexivity|].
  split.
  - apply NoDup_cons. split; [|apply missing_notes_NoDup].
    intros Hin. apply list_elem_of_fmap in Hin as (h & E & _).
    discriminate E.
  - intros hdr Hin. rewrite <- (naming_missing hdr (response self) Hin).
    unfold naming at 1. cbn [List.filter subject].
    destruct ("header-last-modified" =? hdr)%string eqn:E; [|reflexivity].
    apply String.eqb_eq in E. subst hdr.
    unfold hdrs_304 in Hin. cbn in Hin. intuition discriminate.
Qed.

Definition not_modified : HttpResponse :=
  mk_HttpResponse "304" {[ "etag" := 0; "vary" := 0 ]} "" true None.

Lemma done_304_witness :
  exists self',
    done (with_response not_modified (subreq_with_lm 1678000089)) = Ok self'
    /\ Resource.ims_support (base self') = Some true
    /\ Resource.notes (base self')
       = [mk_Note IMS_304 "header-last-modified" [];
          missing_note "cache-control"; missing_note "content-location";
          missing_note "expires"].
Proof.
  destruct (done_304 (with_response not_modified (subreq_with_lm 1678000089))
              eq_refl eq_refl) as (self' & Hd & Hi & _ & Hn & _).
  exists self'. split; [exact Hd|]. split; [exact Hi|]. exact Hn.
Defined.

(** A full response with the status of the base response, and a body that
    differs from the body of the base response. *)
Definition full_changed : HttpResponse :=
  mk_HttpResponse "200" {[ "last-modified" := 1678000100 ]} "9e107d9d" true None.

(** A probe response with status 200 and another body than the base
    response does not make [done] set [ims_support] to false with one note
    of level [WARN]: the note is [IMS_UNKNOWN], of level [INFO], and
    [ims_support] keeps its value. *)
Lemma done_same_status_changed_body :
  let self := with_response full_changed (subreq_with_lm 1678000089) in
  complete (response self) = true
  /\ status_code (response self) = status_code (Resource.response (base self))
  /\ status_code (response self) <> "304"
  /\ payload_md5 (response self) <> payload_md5 (Resource.response (base self))
  /\ done self
     = Ok (add_base_note "header-last-modified" IMS_UNKNOWN [] self)
  /\ ~ (exists self' n,
           done self = Ok self'
           /\ Resource.ims_support (base self') = Some false
           /\ Resource.notes (base self')
              = (Resource.notes (base self) ++ [n])%list
           /\ level (note_class n) = Some WARN).
Proof.
  cbv zeta. repeat split; try discriminate.
  intros (self' & n & Hd & Hi & _). injection Hd as <-. discriminate Hi.
Qed.

(** C2, as the code has it: for a complete probe response with the status
    of the base response, other than 304, identical content hashes set
    [ims_support] to false and give the one note [IMS_FULL], of level
    [WARN]; different content hashes give the one note [IMS_UNKNOWN], of
    level [INFO], and leave [ims_support] as it was. *)
Theorem done_same_status self :
  complete (response self) = true ->
  status_code (response self) <> "304" ->
  status_code (response self) = status_code (Resource.response (base self)) ->
  (payload_md5 (response self) = payload_md5 (Resource.response (base self)) ->
   exists self',
     done self = Ok self'
     /\ Resource.ims_support (base self') = Some false
     /\ Resource.notes (base self')
        = (Resource.notes (base self)
             ++ [mk_Note IMS_FULL "header-last-modified" []])%list
     /\ level IMS_FULL = Some WARN)
  /\ (payload_md5 (response self)
      <> payload_md5 (Resource.response (base self)) ->
      exists self',
        done self = Ok self'
        /\ Resource.ims_support (base self')
           = Resource.ims_support (base self)
        /\ Resource.notes (base self')
           = (Resource.notes (base self)
                ++ [mk_Note IMS_UNKNOWN "header-last-modified" []])%list
        /\ level IMS_UNKNOWN = Some INFO).
Proof.
  intros Hc H304 Hs. apply String.eqb_neq in H304. apply String.eqb_eq in Hs.
  unfold done. rewrite Hc, H304, Hs. cbn [negb].
  split; intros Hm.
  - apply String.eqb_eq in Hm. rewrite Hm. eexists. repeat split.
  - apply String.eqb_neq in Hm. rewrite Hm. eexists. repeat split.
Qed.

Definition full_unchanged : HttpResponse :=
  mk_HttpResponse "200" {[ "last-modified" := 1678000089 ]} "d41d8cd9" true None.

Lemma done_same_status_witness :
  (exists self',
      done (with_response full_unchanged (subreq_with_lm 1678000089)) = Ok self'
      /\ Resource.ims_support (base self') = Some false
      /\ Resource.notes (base self')
         = [mk_Note IMS_FULL "header-last-modified" []]
      /\ level IMS_FULL = Some WARN)
  /\ (exists self',
         done (with_response full_changed (subreq_with_lm 1678000089))
         = Ok self'
         /\ Resource.ims_support (base self') = None
         /\ Resource.notes (base self')
            = [mk_Note IMS_UNKNOWN "header-last-modified" []]
         /\ level IMS_UNKNOWN = Some INFO).
Proof.
  split.
  - apply (proj1 (done_same_status
                    (with_response full_unchanged (subreq_with_lm 1678000089))
                    eq_refl ltac:(discriminate) eq_refl)).
    reflexivity.
  - apply (proj2 (done_same_status
                    (with_response full_changed (subreq_with_lm 1678000089))
                    eq_refl ltac:(discriminate) eq_refl)).
    discriminate.
Defined.

(** What [done] returns in each of its branches. *)
Lemma done_incomplete_run self err :
  complete (response self) = false ->
  http_error (response self) = Some err ->
  done self
  = Ok (add_base_note "" LM_SUBREQ_PROBLEM [("problem", desc err)] self).
Proof. intros Hc He. unfold done. rewrite Hc, He. reflexivity. Qed.

Lemma done_304_run self :
  complete (response self) = true ->
  status_code (response self) = "304" ->
  done self
  = Ok (check_missing_hdrs hdrs_304 MISSING_HDRS_304 "If-Modified-Since"
          (add_base_note "header-last-modified" IMS_304 []
             (with_base (Resource.set_ims_support true) self))).
Proof. intros Hc Hs. unfold done. rewrite Hc, Hs. reflexivity. Qed.

Lemma done_same_status_run self :
  complete (response self) = true ->
  status_code (response self) <> "304" ->
  status_code (response self) = status_code (Resource.response (base self)) ->
  done self
  = if (payload_md5 (response self)
        =? payload_md5 (Resource.response (base self)))%string
    then Ok (add_base_note "header-last-modified" IMS_FULL []
               (with_base (Resource.set_ims_support false) self))
    else Ok (add_base_note "header-last-modified" IMS_UNKNOWN [] self).
Proof.
  intros Hc H304 Hs. apply String.eqb_neq in H304. apply String.eqb_eq in Hs.
  unfold done. rewrite Hc, H304, Hs. reflexivity.
Qed.

Lemma done_other_status_run self :
  complete (response self) = true ->
  status_code (response self) <> "304" ->
  status_code (response self) <> status_code (Resource.response (base self)) ->
  done self
  = Ok (add_base_note "header-last-modified" IMS_STATUS
          [("ims_status", status_code (response self));
           ("enc_ims_status",
            str_or (status_code (response self)) "(unknown)")] self).
Proof.
  intros Hc H304 Hs. apply String.eqb_neq in H304. apply String.eqb_neq in Hs.
  unfold done. rewrite Hc, H304, Hs. reflexivity.
Qed.

(** The note for a status that decides nothing. *)
Definition status_note (status : string) : Note :=
  mk_Note IMS_STATUS "header-last-modified"
    [("ims_status", status);
     ("enc_ims_status", str_or status "(unknown)")].

(** A complete probe response whose status is neither 304 nor the status
    of the base response gives the one note [IMS_STATUS], of level [INFO],
    which carries the status, and [ims_support] keeps its value.  For a
    response that is complete or carries its error, [done] returns and
    adds at least one note, whose class is fixed by the one branch, of
    five, that the response falls into. *)
Lemma done_other_status_and_exhaustive :
  (forall self,
      complete (response self) = true ->
      status_code (response self) <> "304" ->
      status_code (response self)
      <> status_code (Resource.response (base self)) ->
      exists self',
        done self = Ok self'
        /\ Resource.notes (base self')
           = (Resource.notes (base self)
                ++ [status_note (status_code (response self))])%list
        /\ In ("ims_status", status_code (response self))
              (vars (status_note (status_code (response self))))
        /\ level IMS_STATUS = Some INFO
        /\ Resource.ims_support (base self')
           = Resource.ims_support (base self))
  /\ (forall self,
         (complete (response self) = false ->
          http_error (response self) <> None) ->
         exists self' n rest,
           done self = Ok self'
           /\ Resource.notes (base self')
              = (Resource.notes (base self) ++ n :: rest)%list
           /\ (complete (response self) = false
               /\ note_class n = LM_SUBREQ_PROBLEM /\ rest = []
               \/ complete (response self) = true
                  /\ status_code (response self) = "304"
                  /\ note_class n = IMS_304
                  /\ Forall (fun m => note_class m = MISSING_HDRS_304) rest
               \/ complete (response self) = true
                  /\ status_code (response self) <> "304"
                  /\ status_code (response self)
                     = status_code (Resource.response (base self))
                  /\ payload_md5 (response self)
                     = payload_md5 (Resource.response (base self))
                  /\ note_class n = IMS_FULL /\ rest = []
               \/ complete (response self) = true
                  /\ status_code (response self) <> "304"
                  /\ status_code (response self)
                     = status_code (Resource.response (base self))
                  /\ payload_md5 (response self)
                     <> payload_md5 (Resource.response (base self))
                  /\ note_class n = IMS_UNKNOWN /\ rest = []
               \/ complete (response self) = true
                  /\ status_code (response self) <> "304"
                  /\ status_code (response self)
                     <> status_code (Resource.response (base self))
                  /\ note_class n = IMS_STATUS /\ rest = [])).
Proof.
  split.
  - intros self Hc H304 Hs.
    rewrite (done_other_status_run self Hc H304 Hs).
    eexists. repeat split. cbn. auto.
  - intros self Herr.
    destruct (complete (response self)) eqn:Hc.
    + destruct (String.eqb_spec (status_code (response self)) "304")
        as [H304 | H304].
      * rewrite (done_304_run self Hc H304).
        match goal with
        | |- context [check_missing_hdrs ?h _ _ ?s] =>
            destruct (check_missing_hdrs_spec h s) as (Hn & _ & _)
        end.
        eexists _, _, _. split; [reflexivity|]. split.
        { rewrite Hn. cbn. rewrite <- app_assoc. reflexivity. }
        right. left. repeat split; try assumption.
        apply Forall_fmap, Forall_true. reflexivity.
      * destruct (String.eqb_spec (status_code (response self))
                    (status_code (Resource.response (base self))))
          as [Hs | Hs].
        -- rewrite (done_same_status_run self Hc H304 Hs).
           destruct (String.eqb_spec (payload_md5 (response self))
                       (payload_md5 (Resource.response (base self))))
             as [Hm | Hm]; eexists _, _, [];
             (split; [reflexivity|]); (split; [reflexivity|]).
           ++ right. right. left. repeat split; assumption.
           ++ right. right. right. left. repeat split; assumption.
        -- rewrite (done_other_status_run self Hc H304 Hs).
           eexists _, _, []. split; [reflexivity|]. split; [reflexivity|].
           right. right. right. right. repeat split; assumption.
    + destruct (http_error (response self)) as [err|] eqn:He;
        [|destruct (Herr eq_refl eq_refl)].
      rewrite (done_incomplete_run self err Hc He).
      eexists _, _, []. split; [reflexivity|]. split; [reflexivity|].
      left. repeat split.
Qed.

Definition server_error : HttpResponse :=
  mk_HttpResponse "500" ∅ "" true None.

Lemma done_other_status_and_exhaustive_witness :
  (exists self',
      done (with_response server_error (subreq_with_lm 1678000089)) = Ok self'
      /\ Resource.notes (base self')
         = [mk_Note IMS_STATUS "header-last-modified"
              [("ims_status", "500"); ("enc_ims_status", "500")]]
      /\ Resource.ims_support (base self') = None)
  /\ (exists self' n rest,
         done (with_response timed_out (subreq_with_lm 1678000089)) = Ok self'
         /\ Resource.notes (base self') = n :: rest
         /\ note_class n = LM_SUBREQ_PROBLEM).
Proof.
  split.
  - destruct (proj1 done_other_status_and_exhaustive
                (with_response server_error (subreq_with_lm 1678000089))
                eq_refl ltac:(discriminate) ltac:(discriminate))
      as (self' & Hd & Hn & _ & _ & Hi).
    exists self'. split; [exact Hd|]. split; [exact Hn|]. exact Hi.
  - destruct (proj2 done_other_status_and_exhaustive
                (with_response timed_out (subreq_with_lm 1678000089))
                ltac:(intros _; discriminate))
      as (self' & n & rest & Hd & Hn & Hb).
    exists self', n, rest. split; [exact Hd|]. split; [exact Hn|].
    destruct Hb as [(_ & Hk & _) | [(Hc & _) | [(Hc & _) | [(Hc & _) | (Hc & _)]]]];
      [exact Hk | discriminate Hc..].
Defined.

(** C7: the classification is not exhaustive.  [done] returns exactly for
    the probe responses that are complete or carry their error; the
    remaining outcome, an incomplete response without an error, falls
    into no branch that adds a note: at [global_timeout] the call raises
    [AttributeError]. *)
Theorem done_not_exhaustive :
  (forall self,
      (exists self', done self = Ok self')
      <-> (complete (response self) = true
           \/ http_error (response self) <> None))
  /\ complete global_timeout = false
  /\ http_error global_timeout = None
  /\ done (with_response global_timeout (subreq_with_lm 1678000089))
     = Raise AttributeError.
Proof.
  split; [|repeat split].
  intros self. split.
  - intros [self' Hd].
    destruct (complete (response self)) eqn:Hc; [left; reflexivity|].
    right. intros He. unfold done in Hd. rewrite Hc, He in Hd.
    discriminate Hd.
  - intros H.
    destruct (complete (response self)) eqn:Hc.
    + destruct (String.eqb_spec (status_code (response self)) "304")
        as [H304 | H304].
      * rewrite (done_304_run self Hc H304). eexists. reflexivity.
      * destruct (String.eqb_spec (status_code (response self))
                    (status_code (Resource.response (base self))))
          as [Hs | Hs].
        -- rewrite (done_same_status_run self Hc H304 Hs).
           destruct (_ =? _)%string; eexists; reflexivity.
        -- rewrite (done_other_status_run self Hc H304 Hs).
           eexists. reflexivity.
    + destruct H as [H | H]; [discriminate H|].
      destruct (http_error (response self)) as [err|] eqn:He;
        [|destruct (H eq_refl)].
      rewrite (done_incomplete_run self err Hc He). eexists. reflexivity.
Qed.

End LmValidateFacts.

(** ** The HTML formatter *)

Module HtmlFacts.
Import Py Html.

(** *** The keys of the notes *)









Section Formatters.
Variable levels_BAD : string.
Variables categories_CONNEG categories_VALIDATION categories_RANGE : string.
Variables ConnegCheck_check_name ETagValidate_check_name
          RangeRequest_check_name : string.
Variable urlquote : forall (url safe : string), string.
Variable urljoin_parse : forall (base url : string), option string.
Variable context : Context.
Variable fill : forall (width : Z) (subsequent_indent : string) (value : string), string.

Abbreviation format_category :=
  (format_category levels_BAD categories_CONNEG categories_VALIDATION
     categories_RANGE ConnegCheck_check_name ETagValidate_check_name
     RangeRequest_check_name urlquote urljoin_parse context).


(** *** The presentation of header values *)

Definition is_upper (c : ascii) : bool :=
  let n := N_of_ascii c in ((65 <=? n) && (n <=? 90))%N.

Lemma lower_char_not_upper c : is_upper (lower_char c) = false.
Proof.
  destruct c as [[] [] [] [] [] [] [] []]; vm_compute; reflexivity.
Qed.

(** The token of a header name: in lower case, with [_] for [-]. *)
Definition token (name : string) : string := replace "-" "_" (lower name).

Lemma token_head name c rest :
  token name = String c rest -> is_upper c = false.
Proof.
  unfold token. destruct name as [|a name]; [discriminate|].
  cbn [lower replace].
  pose proof (lower_char_not_upper a) as Hl.
  destruct (Ascii.eqb (lower_char a) "-"); cbn; intros [= <- _];
    [reflexivity | exact Hl].
Qed.

Lemma token_nonempty name : name <> "" -> token name <> "".
Proof.
  unfold token. destruct name as [|a name]; [congruence|].
  intros _. cbn [lower replace].
  destruct (Ascii.eqb (lower_char a) "-"); discriminate.
Qed.

Lemma Show_token (name value : string) :
  Show urlquote urljoin_parse context fill name value
  = match token name with
    | "" => Raise IndexError
    | String c _ =>
        if negb (Ascii.eqb c "_") && hasattr (token name)
        then match getattr (token name) with
             | Some a => call urlquote urljoin_parse context fill a (lower name) value
             | None => Raise AttributeError
             end
        else Ok (I fill (e_html value) (len (lower name)))
    end.
Proof. reflexivity. Qed.

(** What [getattr] finds for a token. *)
Lemma getattr_token name :
  token name <> "formatter" ->
  getattr (token name)
  = if (token name =? "content_location")%string
    then Some attr_content_location
    else if (token name =? "location")%string then Some attr_location
    else if (token name =? "x_xrds_location")%string
    then Some attr_x_xrds_location
    else None.
Proof.
  intros Hf. pose proof (token_head name) as Hh.
  remember (token name) as tok eqn:Htok. clear Htok.
  destruct (String.eqb_spec tok "I") as [->|n1];
    [discriminate (Hh _ _ eq_refl)|].
  destruct (String.eqb_spec tok "BARE_URI") as [->|n2];
    [discriminate (Hh _ _ eq_refl)|].
  destruct (String.eqb_spec tok "Show") as [->|n3];
    [discriminate (Hh _ _ eq_refl)|].
  destruct (String.eqb_spec tok "content_location") as [->|n4];
    [reflexivity|].
  destruct (String.eqb_spec tok "location") as [->|n5]; [reflexivity|].
  destruct (String.eqb_spec tok "x_xrds_location") as [->|n6];
    [reflexivity|].
  apply String.eqb_neq in Hf, n1, n2, n3, n4, n5, n6.
  rewrite String.eqb_sym in Hf, n1, n2, n3, n4, n5, n6.
  unfold getattr, attributes. cbn [dict_get].
  rewrite Hf, n1, n2, n3, n4, n5, n6. reflexivity.
Qed.


End Formatters.

(** Stand-ins for the functions of other modules, where a closed example
    needs them. *)
Definition urlquote0 (url safe : string) : string := url.
Definition urljoin_parse0 (base url : string) : option string := Some url.
Definition context0 : Context :=
  mk_Context "http://example.com/" [] None None.
Definition fill0 (width : Z) (subsequent_indent value : string) : string :=
  value.





End HtmlFacts.

(** * Further properties *)

(** ** The calendar: which timestamps are dates, and what a date keeps *)

Module CalendarFacts.
Import Py PyFacts.

Lemma _days_before_year_mono y1 y2 :
  y1 <= y2 -> _days_before_year y1 <= _days_before_year y2.
Proof.
  intros H. unfold _days_before_year. Z.div_mod_to_equations. lia.
Qed.

Lemma _days_before_year_next y :
  _days_before_year y + 365 <= _days_before_year (y + 1)
  <= _days_before_year y + 366.
Proof. unfold _days_before_year. Z.div_mod_to_equations. lia. Qed.

(** An ordinal lies in the year that [_ord2ymd] gives it. *)
Lemma _ord2ymd_year n y m d :
  _ord2ymd n = (y, m, d) ->
  _days_before_year y < n <= _days_before_year (y + 1).
Proof.
  destruct (ordinal_pieces n)
    as (q & n100 & n4 & n1 & r & Hn & H100 & H4 & H1 & Hr & Hc & Hy & E).
  rewrite E. clear E. unfold _DI400Y, _DI100Y, _DI4Y in Hn.
  destruct ((n1 =? 4) || (n100 =? 4)) eqn:Hs.
  - intros [= <- <- <-]. unfold _days_before_year.
    apply orb_true_iff in Hs as [Hs | Hs]; apply Z.eqb_eq in Hs;
      Z.div_mod_to_equations; lia.
  - apply orb_false_iff in Hs as [Hs1 Hs2].
    apply Z.eqb_neq in Hs1, Hs2. cbv zeta. intros [= <- <- <-].
    unfold _days_before_year. Z.div_mod_to_equations. lia.
Qed.

(** The ordinals of the years 1 to 9999. *)
Lemma _ord2ymd_year_range n y m d :
  _ord2ymd n = (y, m, d) ->
  (MINYEAR <= y <= MAXYEAR <-> 1 <= n <= 3652059).
Proof.
  intros E. apply _ord2ymd_year in E. unfold MINYEAR, MAXYEAR.
  change 3652059 with (_days_before_year 10000).
  change 1 with (_days_before_year 1 + 1) at 2.
  split; intros H.
  - pose proof (_days_before_year_mono 1 y ltac:(lia)).
    pose proof (_days_before_year_mono (y + 1) 10000 ltac:(lia)). lia.
  - split.
    + destruct (Z_le_gt_dec 1 y) as [|Hlt]; [assumption|].
      pose proof (_days_before_year_mono (y + 1) 1 ltac:(lia)). lia.
    + destruct (Z_le_gt_dec y 9999) as [|Hgt]; [assumption|].
      pose proof (_days_before_year_mono 10000 y ltac:(lia)). lia.
Qed.

(** [utcfromtimestamp] returns a date exactly for the seconds of the years
    1 to 9999. *)
Lemma utcfromtimestamp_valid t :
  (exists l_m, utcfromtimestamp t = Ok l_m)
  <-> -62135596800 <= t < 253402300800.
Proof.
  unfold utcfromtimestamp. cbv zeta.
  destruct (_ord2ymd _) as [[y m] d] eqn:E.
  apply _ord2ymd_year_range in E. unfold EPOCH_ORDINAL in E.
  destruct ((MINYEAR <=? y) && (y <=? MAXYEAR)) eqn:Hy.
  - apply andb_true_iff in Hy as [H1 H2].
    apply Z.leb_le in H1, H2.
    split; [intros _ | eauto].
    destruct E as [E _]. specialize (E (conj H1 H2)).
    Z.div_mod_to_equations. lia.
  - split; [intros [l_m Hl]; discriminate Hl|].
    intros Ht. exfalso.
    assert (Hn : 1 <= t / 86400 + 719163 <= 3652059)
      by (Z.div_mod_to_equations; lia).
    apply E in Hn. apply andb_false_iff in Hy as [Hy | Hy];
      [apply Z.leb_gt in Hy | apply Z.leb_gt in Hy]; lia.
Qed.

(** The seconds since the epoch of a date, as [calendar.timegm] counts
    them. *)
Definition timegm (l_m : datetime) : Z :=
  (toordinal l_m - EPOCH_ORDINAL) * 86400
  + hour l_m * 3600 + minute l_m * 60 + second l_m.

(** The date of a timestamp gives the timestamp back. *)
Lemma timegm_utcfromtimestamp t l_m :
  utcfromtimestamp t = Ok l_m -> timegm l_m = t.
Proof.
  unfold utcfromtimestamp. cbv zeta.
  destruct (_ord2ymd _) as [[y m] d] eqn:E.
  apply _ymd2ord_ord2ymd in E.
  destruct (_ && _); [|discriminate].
  intros [= <-]. unfold timegm, toordinal. cbn [year month day hour minute second].
  rewrite E. unfold EPOCH_ORDINAL. Z.div_mod_to_equations. lia.
Qed.

End CalendarFacts.

(** ** More on the request headers of the probe *)

Module LmValidateMore.
Import Py PyFacts CalendarFacts Speak Message LmValidate LmValidateFacts.

(** Whether the base response has a [last-modified] that is a date. *)
Definition dated (self : SubRequest) : Prop :=
  exists t,
    parsed_headers (Resource.response (base self)) !! "last-modified" = Some t
    /\ -62135596800 <= t < 253402300800.

Lemma modify_req_hdrs_dated self :
  let hdrs := headers (Resource.request (base self)) in
  ((exists v, modify_req_hdrs self = Ok (hdrs ++ [("If-Modified-Since", v)])%list)
   <-> dated self)
  /\ (modify_req_hdrs self = Ok hdrs <-> ~ dated self).
Proof.
  cbv zeta. unfold dated.
  assert (Hne : forall v,
             Ok (headers (Resource.request (base self))
                   ++ [("If-Modified-Since", v)])%list
             <> Ok (headers (Resource.request (base self)))).
  { intros v [= E]. apply (f_equal length) in E.
    rewrite length_app in E. cbn in E. lia. }
  destruct (parsed_headers (Resource.response (base self))
              !! "last-modified") as [t|] eqn:Hlm.
  - destruct (utcfromtimestamp_cases t) as [[l_m Hok] | Herr].
    + destruct (modify_req_hdrs_valid self t l_m Hlm Hok)
        as (wd & mon & _ & _ & _ & _ & _ & E).
      assert (Hr : -62135596800 <= t < 253402300800)
        by (apply utcfromtimestamp_valid; eauto).
      rewrite E. split; split.
      * intros _. eauto.
      * intros _. eauto.
      * intros H. destruct (Hne _ H).
      * intros H. destruct H. eauto.
    + assert (E : modify_req_hdrs self
                  = Ok (headers (Resource.request (base self))))
        by (unfold modify_req_hdrs; rewrite Hlm, Herr; reflexivity).
      assert (Hr : ~ -62135596800 <= t < 253402300800).
      { intros Hr. apply utcfromtimestamp_valid in Hr as [l_m Hl].
        rewrite Herr in Hl. discriminate Hl. }
      rewrite E. split; split.
      * intros [v H]. symmetry in H. destruct (Hne _ H).
      * intros (t' & [= <-] & Ht). destruct (Hr Ht).
      * intros _ (t' & [= <-] & Ht). destruct (Hr Ht).
      * reflexivity.
  - assert (E : modify_req_hdrs self
                = Ok (headers (Resource.request (base self))))
      by (unfold modify_req_hdrs; rewrite Hlm; reflexivity).
    rewrite E. split; split.
    + intros [v H]. symmetry in H. destruct (Hne _ H).
    + intros (t' & Ht & _). discriminate Ht.
    + intros _ (t' & Ht & _). discriminate Ht.
    + reflexivity.
Qed.

Lemma digit_inj a b :
  0 <= a < 10 -> 0 <= b < 10 -> digit a = digit b -> a = b.
Proof.
  intros Ha Hb E. unfold digit in E. apply (f_equal N_of_ascii) in E.
  rewrite !N_ascii_embedding in E by lia. lia.
Qed.

Lemma two_digits_inj a b :
  0 <= a < 100 -> 0 <= b < 100 -> two_digits a = two_digits b -> a = b.
Proof.
  intros Ha Hb [= E1 E2].
  apply digit_inj in E1, E2; Z.div_mod_to_equations; lia.
Qed.

Lemma four_digits_inj a b :
  0 <= a < 10000 -> 0 <= b < 10000 -> four_digits a = four_digits b -> a = b.
Proof.
  intros Ha Hb [= E1 E2 E3 E4].
  apply digit_inj in E1, E2, E3, E4; Z.div_mod_to_equations; lia.
Qed.

(** The number of a month, from its name. *)
Definition month_number (mon : string) : Z :=
  match list_find (fun m => m = Some mon) _months with
  | Some (i, _) => Z.of_nat i
  | None => 0
  end.

Lemma getitem_months_number i mon :
  1 <= i <= 12 -> getitem _months i = Ok (Some mon) -> month_number mon = i.
Proof.
  intros Hi.
  assert (Hc : i = 1 \/ i = 2 \/ i = 3 \/ i = 4 \/ i = 5 \/ i = 6 \/ i = 7
               \/ i = 8 \/ i = 9 \/ i = 10 \/ i = 11 \/ i = 12) by lia.
  repeat (destruct Hc as [-> | Hc]); try subst i;
    intros [= <-]; reflexivity.
Qed.

Lemma weekday_name wd :
  In wd _weekdays -> exists a b c, wd = String a (String b (String c "")).
Proof.
  intros Hin. unfold _weekdays in Hin. cbn in Hin.
  repeat destruct Hin as [Hin | Hin]; try contradiction; subst; eauto.
Qed.

Lemma month_name mon :
  In (Some mon) _months ->
  exists a b c, mon = String a (String b (String c "")).
Proof.
  intros Hin. unfold _months in Hin. cbn in Hin.
  repeat destruct Hin as [Hin | Hin]; try contradiction; try discriminate;
    injection Hin as <-; eauto.
Qed.

(** A date in its fixed-width form keeps all of its fields. *)
Lemma http_date_inj wd1 mon1 l1 wd2 mon2 l2 t1 t2 :
  In wd1 _weekdays -> In wd2 _weekdays ->
  In (Some mon1) _months -> In (Some mon2) _months ->
  utcfromtimestamp t1 = Ok l1 -> utcfromtimestamp t2 = Ok l2 ->
  http_date wd1 mon1 l1 = http_date wd2 mon2 l2 ->
  mon1 = mon2
  /\ day l1 = day l2 /\ year l1 = year l2 /\ hour l1 = hour l2
  /\ minute l1 = minute l2 /\ second l1 = second l2.
Proof.
  intros Hw1 Hw2 Hm1 Hm2 Hv1 Hv2 E.
  apply weekday_name in Hw1 as (a1 & b1 & c1 & ->).
  apply weekday_name in Hw2 as (a2 & b2 & c2 & ->).
  apply month_name in Hm1 as (x1 & y1 & z1 & ->).
  apply month_name in Hm2 as (x2 & y2 & z2 & ->).
  apply utcfromtimestamp_range in Hv1, Hv2.
  unfold http_date, four_digits, two_digits in E. cbn in E.
  injection E as -> -> -> Ed1 Ed2 -> -> -> Ey1 Ey2 Ey3 Ey4 Eh1 Eh2 Ei1 Ei2
    Es1 Es2.
  split; [reflexivity|].
  repeat split.
  - apply two_digits_inj; [lia | lia |]. unfold two_digits. congruence.
  - apply four_digits_inj; [lia | lia |]. unfold four_digits. congruence.
  - apply two_digits_inj; [lia | lia |]. unfold two_digits. congruence.
  - apply two_digits_inj; [lia | lia |]. unfold two_digits. congruence.
  - apply two_digits_inj; [lia | lia |]. unfold two_digits. congruence.
Qed.

(** X2: the value of [If-Modified-Since] keeps the whole timestamp: two
    probes that carry the same value come from the same [last-modified]
    second. *)
Theorem if_modified_since_inj self1 self2 t1 t2 v :
  parsed_headers (Resource.response (base self1)) !! "last-modified" = Some t1 ->
  parsed_headers (Resource.response (base self2)) !! "last-modified" = Some t2 ->
  modify_req_hdrs self1
  = Ok (headers (Resource.request (base self1))
          ++ [("If-Modified-Since", v)])%list ->
  modify_req_hdrs self2
  = Ok (headers (Resource.request (base self2))
          ++ [("If-Modified-Since", v)])%list ->
  t1 = t2.
Proof.
  intros Hlm1 Hlm2 E1 E2.
  assert (Hv : forall self t,
             parsed_headers (Resource.response (base self)) !! "last-modified"
             = Some t ->
             modify_req_hdrs self
             = Ok (headers (Resource.request (base self))
                     ++ [("If-Modified-Since", v)])%list ->
             exists l_m wd mon,
               utcfromtimestamp t = Ok l_m
               /\ In wd _weekdays /\ In (Some mon) _months
               /\ getitem _months (month l_m) = Ok (Some mon)
               /\ v = http_date wd mon l_m).
  { intros self t Hlm E.
    destruct (utcfromtimestamp_cases t) as [[l_m Hok] | Herr].
    - destruct (modify_req_hdrs_valid self t l_m Hlm Hok)
        as (wd & mon & Hw & Hm & _ & Hg & _ & E').
      rewrite E' in E. injection E as E. apply app_inv_head in E.
      injection E as <-. eauto 10.
    - exfalso. unfold modify_req_hdrs in E. rewrite Hlm, Herr in E.
      injection E as E. apply (f_equal length) in E.
      rewrite length_app in E. cbn in E. lia. }
  destruct (Hv self1 t1 Hlm1 E1) as (l1 & wd1 & mon1 & Hok1 & Hw1 & Hm1 & Hg1 & Hd1).
  destruct (Hv self2 t2 Hlm2 E2) as (l2 & wd2 & mon2 & Hok2 & Hw2 & Hm2 & Hg2 & Hd2).
  rewrite Hd1 in Hd2.
  destruct (http_date_inj _ _ _ _ _ _ _ _ Hw1 Hw2 Hm1 Hm2 Hok1 Hok2 Hd2)
    as (Hmon & Hday & Hyear & Hhour & Hmin & Hsec).
  subst mon2.
  pose proof (utcfromtimestamp_range _ _ Hok1) as R1.
  pose proof (utcfromtimestamp_range _ _ Hok2) as R2.
  apply getitem_months_number in Hg1, Hg2; try lia.
  rewrite <- (timegm_utcfromtimestamp _ _ Hok1).
  rewrite <- (timegm_utcfromtimestamp _ _ Hok2).
  unfold timegm, toordinal. congruence.
Qed.

Lemma if_modified_since_inj_witness : 1678000089 = 1678000089.
Proof.
  exact (if_modified_since_inj (subreq_with_lm 1678000089)
           (subreq_with_lm 1678000089) 1678000089 1678000089
           "Sun, 05 Mar 2023 07:08:09 GMT" eq_refl eq_refl eq_refl eq_refl).
Defined.

(** X1: the probe gets an [If-Modified-Since] header exactly when the base
    response has a parsed [last-modified] whose seconds fall in the years 1
    to 9999; in every other case it gets the headers of the base request
    as they are. *)
Theorem if_modified_since_added_iff self :
  let hdrs := headers (Resource.request (base self)) in
  let in_range :=
    exists t,
      parsed_headers (Resource.response (base self)) !! "last-modified" = Some t
      /\ -62135596800 <= t < 253402300800 in
  ((exists v, modify_req_hdrs self = Ok (hdrs ++ [("If-Modified-Since", v)])%list)
   <-> in_range)
  /\ (modify_req_hdrs self = Ok hdrs <-> ~ in_range).
Proof. exact (modify_req_hdrs_dated self). Qed.

(** X3: the check can be applicable and still send a probe without a
    validator: [preflight] answers true and the probe gets the headers of
    the base request as they are exactly when the parsed [last-modified]
    lies outside the years 1 to 9999. *)
Theorem applicable_without_validator self :
  (preflight self).1 = true
  /\ modify_req_hdrs self = Ok (headers (Resource.request (base self)))
  <-> exists t,
      parsed_headers (Resource.response (base self)) !! "last-modified" = Some t
      /\ (t < -62135596800 \/ 253402300800 <= t).
Proof.
  destruct (modify_req_hdrs_dated self) as [_ Hun]. cbv zeta in Hun.
  unfold dated in Hun.
  unfold preflight, has_key.
  destruct (parsed_headers (Resource.response (base self))
              !! "last-modified") as [t|] eqn:Hlm; cbn.
  - split.
    + intros [_ E]. apply Hun in E. exists t. split; [reflexivity|].
      destruct (Z_lt_ge_dec t (-62135596800)) as [|H1]; [lia|].
      destruct (Z_lt_ge_dec t 253402300800) as [H2|]; [|lia].
      destruct E. exists t. split; [reflexivity | lia].
    + intros (t' & [= <-] & Ht). split; [reflexivity|].
      apply Hun. intros (t' & [= <-] & Ht'). lia.
  - split.
    + intros [H _]. discriminate H.
    + intros (t & H & _). discriminate H.
Qed.

(** X15: [done] does not set [ims_support] without cause. Afterwards it is
    true only if the probe response is complete with status 304, or if it
    was true before; it is false only if the probe response is complete
    with the status and the content hash of the base response and a status
    other than 304, or if it was false before; and a flag that was decided
    stays decided. *)
Theorem done_ims_support_cause self self' :
  done self = Ok self' ->
  (Resource.ims_support (base self') = Some true ->
   complete (response self) = true /\ status_code (response self) = "304"
   \/ Resource.ims_support (base self) = Some true)
  /\ (Resource.ims_support (base self') = Some false ->
      complete (response self) = true
      /\ status_code (response self) <> "304"
      /\ status_code (response self)
         = status_code (Resource.response (base self))
      /\ payload_md5 (response self)
         = payload_md5 (Resource.response (base self))
      \/ Resource.ims_support (base self) = Some false)
  /\ (Resource.ims_support (base self) <> None ->
      Resource.ims_support (base self') <> None).
Proof.
  destruct (complete (response self)) eqn:Hc.
  - destruct (String.eqb_spec (status_code (response self)) "304")
      as [H304 | H304].
    + rewrite (done_304_run self Hc H304).
      destruct (check_missing_hdrs_spec hdrs_304
                  (add_base_note "header-last-modified" IMS_304 []
                     (with_base (Resource.set_ims_support true) self)))
        as (_ & Hi & _).
      intros E.
      replace self' with
        (check_missing_hdrs hdrs_304 MISSING_HDRS_304 "If-Modified-Since"
           (add_base_note "header-last-modified" IMS_304 []
              (with_base (Resource.set_ims_support true) self)))
        by congruence.
      rewrite Hi. cbn.
      repeat split; [auto | discriminate | discriminate].
    + destruct (String.eqb_spec (status_code (response self))
                  (status_code (Resource.response (base self))))
        as [Hs | Hs].
      * rewrite (done_same_status_run self Hc H304 Hs).
        destruct (String.eqb_spec (payload_md5 (response self))
                    (payload_md5 (Resource.response (base self))))
          as [Hm | Hm]; intros [= <-]; cbn;
          repeat split; auto; discriminate.
      * rewrite (done_other_status_run self Hc H304 Hs).
        intros [= <-]. cbn. repeat split; auto.
  - unfold done. rewrite Hc. cbn [negb].
    destruct (http_error (response self)); [|discriminate].
    intros [= <-]. cbn. repeat split; auto.
Qed.

Lemma done_ims_support_cause_witness :
  exists self',
    done (with_response not_modified (subreq_with_lm 1678000089)) = Ok self'
    /\ Resource.ims_support (base self') = Some true
    /\ (complete not_modified = true /\ status_code not_modified = "304"
        \/ Resource.ims_support (base (subreq_with_lm 1678000089)) = Some true).
Proof.
  destruct (done (with_response not_modified (subreq_with_lm 1678000089)))
    as [self'|e] eqn:E; [|discriminate E].
  exists self'. split; [reflexivity|].
  assert (Hi : Resource.ims_support (base self') = Some true)
    by (injection E as <-; reflexivity).
  split; [exact Hi|].
  exact (proj1 (done_ims_support_cause
                  (with_response not_modified (subreq_with_lm 1678000089))
                  self' E) Hi).
Defined.

End LmValidateMore.

(** ** Escaping *)

Module EscapeFacts.
Import Py Html HtmlResponse.

(** Whether the character [c] occurs in [s]. *)
Fixpoint occurs (c : ascii) (s : string) : bool :=
  match s with
  | "" => false
  | String a rest => Ascii.eqb a c || occurs c rest
  end.

Lemma occurs_app c s t : occurs c (s +:+ t) = occurs c s || occurs c t.
Proof.
  induction s as [|a s IH]; [reflexivity|].
  change (String a s +:+ t) with (String a (s +:+ t)).
  cbn [occurs]. rewrite IH, orb_assoc. reflexivity.
Qed.

Lemma append_assoc s t u : (s +:+ t) +:+ u = s +:+ (t +:+ u).
Proof.
  induction s as [|a s IH]; [reflexivity|].
  change ((String a s +:+ t) +:+ u) with (String a ((s +:+ t) +:+ u)).
  rewrite IH. reflexivity.
Qed.

Lemma append_length s t :
  String.length (s +:+ t) = (String.length s + String.length t)%nat.
Proof.
  induction s as [|a s IH]; [reflexivity|].
  change (String a s +:+ t) with (String a (s +:+ t)).
  cbn [String.length]. rewrite IH. reflexivity.
Qed.

Lemma replace_app c by_ s t :
  replace c by_ (s +:+ t) = replace c by_ s +:+ replace c by_ t.
Proof.
  induction s as [|a s IH]; [reflexivity|].
  change (String a s +:+ t) with (String a (s +:+ t)).
  cbn [replace]. rewrite IH. symmetry. apply append_assoc.
Qed.

Lemma replace_absent c by_ s : occurs c s = false -> replace c by_ s = s.
Proof.
  induction s as [|a s IH]; [reflexivity|].
  cbn [occurs replace]. intros H. apply orb_false_iff in H as [Ha Hs].
  rewrite Ha, (IH Hs). reflexivity.
Qed.

Lemma e_html_app s t : e_html (s +:+ t) = e_html s +:+ e_html t.
Proof. unfold e_html. rewrite !replace_app. reflexivity. Qed.

Lemma e_html_cons a s : e_html (String a s) = e_html (String a "") +:+ e_html s.
Proof. apply (e_html_app (String a "") s). Qed.

(** The characters that [e_html] rewrites. *)
Definition html_special (a : ascii) : bool :=
  Ascii.eqb a "&" || Ascii.eqb a "<" || Ascii.eqb a ">" || Ascii.eqb a "034".

Lemma e_html_char a :
  e_html (String a "")
  = if Ascii.eqb a "&" then "&amp;"
    else if Ascii.eqb a "<" then "&lt;"
    else if Ascii.eqb a ">" then "&gt;"
    else if Ascii.eqb a "034" then "&quot;"
    else String a "".
Proof.
  destruct a as [[] [] [] [] [] [] [] []]; vm_compute; reflexivity.
Qed.

(** X4: what [e_html] returns has no [<], no [>] and no double quote. *)
Theorem e_html_no_markup s :
  occurs "<" (e_html s) = false
  /\ occurs ">" (e_html s) = false
  /\ occurs "034" (e_html s) = false.
Proof.
  induction s as [|a s (IH1 & IH2 & IH3)]; [repeat split|].
  rewrite e_html_cons, !occurs_app, IH1, IH2, IH3, !orb_false_r.
  destruct a as [[] [] [] [] [] [] [] []]; vm_compute; repeat split.
Qed.

Lemma e_html_length s : (String.length s <= String.length (e_html s))%nat.
Proof.
  induction s as [|a s IH]; [reflexivity|].
  rewrite e_html_cons, e_html_char, append_length.
  repeat (destruct (Ascii.eqb a _)); cbn; lia.
Qed.

(** X5: [e_html] returns its argument as it is exactly when the argument
    has none of [&], [<], [>] and the double quote. *)
Theorem e_html_fixed s :
  e_html s = s <-> forallb (fun a => negb (html_special a)) (list_ascii_of_string s) = true.
Proof.
  induction s as [|a s IH]; [split; reflexivity|].
  rewrite e_html_cons, e_html_char. cbn [list_ascii_of_string forallb].
  unfold html_special at 1.
  pose proof (e_html_length s) as Hl.
  destruct (Ascii.eqb a "&") eqn:E1;
    [|destruct (Ascii.eqb a "<") eqn:E2;
      [|destruct (Ascii.eqb a ">") eqn:E3;
        [|destruct (Ascii.eqb a "034") eqn:E4]]]; cbn.
  1-4: split; [|discriminate]; intros E;
    apply (f_equal String.length) in E;
    rewrite append_length in E; cbn [String.length] in E; lia.
  rewrite <- IH. split; [intros [= E]; exact E | intros ->; reflexivity].
Qed.

(** Reading the inside of a double-quoted JavaScript string from the left:
    a backslash escapes the next character. The answer is [None] when a
    [<] or a double quote that is not escaped is met, and else whether the
    text ends inside an escape. *)
Fixpoint js_scan (escaped : bool) (s : string) : option bool :=
  match s with
  | "" => Some escaped
  | String a rest =>
      if Ascii.eqb a "<" then None
      else if escaped then js_scan false rest
      else if Ascii.eqb a "092" then js_scan true rest
      else if Ascii.eqb a "034" then None
      else js_scan false rest
  end.

(** [e_js] without its test for the empty string. *)
Definition e_js_replaced (instr : string) : string :=
  replace "<" (bs +:+ "x3c")
    (replace "034" (bs +:+ dq) (replace "092" (bs +:+ bs) instr)).

Lemma e_js_replaced_eq s : e_js s = e_js_replaced s.
Proof. destruct s; reflexivity. Qed.

Lemma e_js_replaced_cons a s :
  e_js_replaced (String a s) = e_js_replaced (String a "") +:+ e_js_replaced s.
Proof.
  unfold e_js_replaced.
  change (String a s) with (String a "" +:+ s).
  rewrite !replace_app. reflexivity.
Qed.

Lemma js_scan_char a rest :
  js_scan false (e_js_replaced (String a "") +:+ rest) = js_scan false rest.
Proof.
  destruct a as [[] [] [] [] [] [] [] []]; reflexivity.
Qed.

(** X6: what [e_js] returns can stand between the double quotes of a
    JavaScript string: it has no [<], every double quote in it is escaped
    by a backslash, and it does not end inside an escape. *)
Theorem e_js_safe s : js_scan false (e_js s) = Some false.
Proof.
  rewrite e_js_replaced_eq.
  induction s as [|a s IH]; [reflexivity|].
  rewrite e_js_replaced_cons, js_scan_char. exact IH.
Qed.

(** X7: [e_js] changes nothing but backslashes, double quotes and [<]: a
    text without them comes back as it is. *)
Theorem e_js_plain s :
  occurs "092" s = false -> occurs "034" s = false -> occurs "<" s = false ->
  e_js s = s.
Proof.
  intros H1 H2 H3. rewrite e_js_replaced_eq. unfold e_js_replaced.
  rewrite (replace_absent _ _ _ H1), (replace_absent _ _ _ H2).
  apply replace_absent, H3.
Qed.

Lemma e_js_plain_witness : e_js "http://example.com/a?b=1" = "http://example.com/a?b=1".
Proof. apply e_js_plain; reflexivity. Defined.

End EscapeFacts.

(** ** More on the presentation of header values *)

Module PresenterFacts.
Import Py Html HtmlFacts EscapeFacts.

Section Presenter.
Variable urlquote : forall (url safe : string), string.
Variable urljoin_parse : forall (base url : string), option string.
Variable context : Context.
Variable fill : forall (width : Z) (subsequent_indent : string) (value : string), string.

(** The tokens of the headers whose value is shown as a link. *)
Definition uri_tokens : list string :=
  ["content_location"; "location"; "x_xrds_location"].

(** A reference that [urljoin] cannot join to the URI of the request:
    neither of the two is empty, and parsing them raises [ValueError]. *)
Definition unjoinable (url : string) : Prop :=
  request_uri context <> "" /\ url <> ""
  /\ urljoin_parse (request_uri context) url = None.

(** A header whose link cannot be made: its value, without the white
    space around it, cannot be joined to the URI of the request. *)
Definition broken_link (name value : string) : Prop :=
  In (token name) uri_tokens /\ unjoinable (lstrip (rstrip value)).

Lemma urljoin_outcome url :
  match urljoin urljoin_parse (request_uri context) url with
  | Ok _ => ~ unjoinable url
  | Raise e => e = ValueError /\ unjoinable url
  end.
Proof.
  unfold urljoin, unjoinable.
  destruct (request_uri context) as [|a base]; [intros (H & _); congruence|].
  destruct url as [|b url]; [intros (_ & H & _); congruence|].
  destruct (urljoin_parse _ _).
  - intros (_ & _ & H). discriminate H.
  - repeat split; discriminate.
Qed.

(** A query string for a new request fails exactly when the link cannot
    be joined. *)
Lemma req_qs_outcome url check_name res_format referer :
  match req_qs urlquote urljoin_parse context (Some url) check_name res_format
          false referer with
  | Ok _ => ~ unjoinable url
  | Raise e => e = ValueError /\ unjoinable url
  end.
Proof.
  unfold req_qs. cbn [andb].
  replace (if truthy (Some url) then default "" (Some url) else "") with url
    by (destruct url; reflexivity).
  pose proof (urljoin_outcome url) as H.
  destruct (urljoin urljoin_parse (request_uri context) url); exact H.
Qed.

Lemma BARE_URI_outcome name value :
  match BARE_URI urlquote urljoin_parse context fill name value with
  | Ok _ => ~ unjoinable (lstrip (rstrip value))
  | Raise e => e = ValueError /\ unjoinable (lstrip (rstrip value))
  end.
Proof.
  unfold BARE_URI. cbv zeta.
  pose proof (req_qs_outcome (lstrip (rstrip value)) None None true) as H.
  destruct (req_qs _ _ _ _ _ _ _ _); exact H.
Qed.

Lemma Show_outcome name value :
  match Show urlquote urljoin_parse context fill name value with
  | Ok _ =>
      name <> "" /\ token name <> "formatter" /\ ~ broken_link name value
  | Raise e =>
      name = "" /\ e = IndexError
      \/ token name = "formatter" /\ e = TypeError
      \/ broken_link name value /\ e = ValueError
  end.
Proof.
  destruct (String.eqb_spec name "") as [-> | Hne]; [left; split; reflexivity|].
  destruct (String.eqb_spec (token name) "formatter") as [Hf | Hf].
  - rewrite Show_token, Hf. right. left. split; reflexivity.
  - rewrite Show_token. unfold hasattr. rewrite (getattr_token name Hf).
    pose proof (token_nonempty name Hne) as Hn.
    pose proof (BARE_URI_outcome (lower name) value) as HB.
    unfold broken_link, uri_tokens.
    destruct (token name) as [|c rest] eqn:Ht; [congruence|].
    destruct (String.eqb_spec (String c rest) "content_location") as [E|n1].
    { injection E as -> ->. cbn [negb andb Ascii.eqb Bool.eqb call In].
      destruct (BARE_URI _ _ _ _ _ _) as [out|e].
      - repeat split; try assumption; try discriminate.
        intros [_ H]. exact (HB H).
      - destruct HB as [-> HB]. right. right.
        split; [split; [cbn; auto | exact HB] | reflexivity]. }
    destruct (String.eqb_spec (String c rest) "location") as [E|n2].
    { injection E as -> ->. cbn [negb andb Ascii.eqb Bool.eqb call In].
      destruct (BARE_URI _ _ _ _ _ _) as [out|e].
      - repeat split; try assumption; try discriminate.
        intros [_ H]. exact (HB H).
      - destruct HB as [-> HB]. right. right.
        split; [split; [cbn; auto | exact HB] | reflexivity]. }
    destruct (String.eqb_spec (String c rest) "x_xrds_location") as [E|n3].
    { injection E as -> ->. cbn [negb andb Ascii.eqb Bool.eqb call In].
      destruct (BARE_URI _ _ _ _ _ _) as [out|e].
      - repeat split; try assumption; try discriminate.
        intros [_ H]. exact (HB H).
      - destruct HB as [-> HB]. right. right.
        split; [split; [cbn; auto | exact HB] | reflexivity]. }
    assert (Hnot : ~ (In (String c rest) uri_tokens
                      /\ unjoinable (lstrip (rstrip value)))).
    { intros [[H | [H | [H | []]]] _]; congruence. }
    rewrite andb_false_r. repeat split; assumption.
Qed.

(** X8: [Show] fails for three kinds of headers and no other: on the
    empty name with [IndexError]; on a name whose token is [formatter]
    with [TypeError]; and with [ValueError] on a header whose token is
    [content_location], [location] or [x_xrds_location] when neither the
    URI of the request nor the value without the white space around it is
    empty and [urljoin] cannot parse the two. *)
Theorem Show_failures name value :
  ((exists shown, Show urlquote urljoin_parse context fill name value = Ok shown)
   <-> name <> "" /\ token name <> "formatter" /\ ~ broken_link name value)
  /\ (Show urlquote urljoin_parse context fill name value = Raise IndexError
      <-> name = "")
  /\ (Show urlquote urljoin_parse context fill name value = Raise TypeError
      <-> token name = "formatter")
  /\ (Show urlquote urljoin_parse context fill name value = Raise ValueError
      <-> In (token name) uri_tokens
          /\ request_uri context <> ""
          /\ lstrip (rstrip value) <> ""
          /\ urljoin_parse (request_uri context) (lstrip (rstrip value))
             = None)
  /\ (forall e,
         Show urlquote urljoin_parse context fill name value = Raise e ->
         e = IndexError \/ e = TypeError \/ e = ValueError).
Proof.
  pose proof (Show_outcome name value) as H.
  change (In (token name) uri_tokens
          /\ request_uri context <> ""
          /\ lstrip (rstrip value) <> ""
          /\ urljoin_parse (request_uri context) (lstrip (rstrip value))
             = None)
    with (broken_link name value).
  assert (Hempty : name = "" -> ~ broken_link name value).
  { intros -> [[H1 | [H1 | [H1 | []]]] _]; discriminate H1. }
  assert (Hfmt : token name = "formatter" -> ~ broken_link name value).
  { intros E [[H1 | [H1 | [H1 | []]]] _]; congruence. }
  assert (Hef : name = "" -> token name <> "formatter").
  { intros ->. discriminate. }
  destruct (Show urlquote urljoin_parse context fill name value)
    as [shown | e].
  - destruct H as (H1 & H2 & H3). split; [|split; [|split; [|split]]].
    + split; [intros _; auto | intros _; eauto].
    + split; [discriminate | intros E; destruct (H1 E)].
    + split; [discriminate | intros E; destruct (H2 E)].
    + split; [discriminate | intros E; destruct (H3 E)].
    + discriminate.
  - destruct H as [[Hn ->] | [[Hf ->] | [Hb ->]]];
      (split; [|split; [|split; [|split]]]);
      try (split; [intros [? E]; discriminate E|]);
      try (split; [discriminate|]);
      try (split; [auto | reflexivity]);
      try (intros e' [= <-]; auto).
    + intros (E & _). destruct (E Hn).
    + intros E. destruct (Hef Hn E).
    + intros E. destruct (Hempty Hn E).
    + intros (_ & E & _). destruct (E Hf).
    + intros E. destruct (Hef E Hf).
    + intros E. destruct (Hfmt Hf E).
    + intros (_ & _ & E). destruct (E Hb).
    + intros E. destruct (Hempty E Hb).
    + intros E. destruct (Hfmt E Hb).
Qed.

Lemma lower_length s : String.length (lower s) = String.length s.
Proof. induction s as [|a s IH]; cbn; congruence. Qed.

Lemma replace_hyphen_length s :
  String.length (replace "-" "_" s) = String.length s.
Proof.
  induction s as [|a s IH]; [reflexivity|].
  cbn [replace].
  destruct (Ascii.eqb a "-"); rewrite append_length, IH; reflexivity.
Qed.

Lemma token_length name : String.length (token name) = String.length name.
Proof. unfold token. rewrite replace_hyphen_length. apply lower_length. Qed.

Lemma lower_char_idem a : lower_char (lower_char a) = lower_char a.
Proof. destruct a as [[] [] [] [] [] [] [] []]; reflexivity. Qed.

Lemma lower_idem s : lower (lower s) = lower s.
Proof.
  induction s as [|a s IH]; [reflexivity|].
  cbn. rewrite lower_char_idem, IH. reflexivity.
Qed.

Lemma len_lower_token name : len (lower name) = len (token name).
Proof. unfold len. rewrite lower_length, token_length. reflexivity. Qed.

Lemma getattr_not_I name : getattr (token name) <> Some attr_I.
Proof.
  destruct (String.eqb_spec (token name) "formatter") as [Hf | Hf].
  - rewrite Hf. discriminate.
  - rewrite (getattr_token name Hf).
    repeat (destruct (_ =? _)%string; [discriminate|]). discriminate.
Qed.

(** A handler reads the name only for its length. *)
Lemma call_len a x y value :
  a <> attr_I -> len x = len y ->
  call urlquote urljoin_parse context fill a x value
  = call urlquote urljoin_parse context fill a y value.
Proof.
  intros Ha Hl. destruct a; try reflexivity; try congruence;
    unfold call, BARE_URI; rewrite Hl; reflexivity.
Qed.

(** X9: the presentation of a header depends on its name through the
    token only: names that differ in the case of their letters, or in [-]
    against [_], are presented alike. *)
Theorem Show_by_token n1 n2 value :
  token n1 = token n2 ->
  Show urlquote urljoin_parse context fill n1 value
  = Show urlquote urljoin_parse context fill n2 value.
Proof.
  intros E.
  assert (Hlen : len (lower n1) = len (lower n2))
    by (rewrite !len_lower_token, E; reflexivity).
  rewrite !Show_token, E, Hlen.
  destruct (token n2) as [|c rest] eqn:Ht; [reflexivity|].
  destruct (negb (Ascii.eqb c "_") && hasattr (String c rest)); [|reflexivity].
  destruct (getattr (String c rest)) as [a|] eqn:Ha; [|reflexivity].
  apply call_len; [|exact Hlen].
  intros ->. rewrite <- Ht in Ha. exact (getattr_not_I n2 Ha).
Qed.

(** *** Bare URIs *)

Definition all_space (s : string) : bool :=
  forallb isspace (list_ascii_of_string s).

Fixpoint last_char (s : string) : option ascii :=
  match s with
  | "" => None
  | String a rest =>
      match rest with
      | "" => Some a
      | _ => last_char rest
      end
  end.

Lemma lstrip_spec s :
  exists ws, s = ws +:+ lstrip s /\ all_space ws = true.
Proof.
  induction s as [|a s (ws & E & Hws)]; [exists ""; split; reflexivity|].
  cbn [lstrip]. destruct (isspace a) eqn:Ha.
  - exists (String a ws). split.
    + change (String a ws +:+ lstrip s) with (String a (ws +:+ lstrip s)).
      rewrite <- E. reflexivity.
    + unfold all_space. cbn. rewrite Ha. exact Hws.
  - exists "". split; reflexivity.
Qed.

Lemma lstrip_head s c r : lstrip s = String c r -> isspace c = false.
Proof.
  induction s as [|a s IH]; [discriminate|].
  cbn [lstrip]. destruct (isspace a) eqn:Ha; [exact IH|].
  intros [= <- _]. exact Ha.
Qed.

Lemma rstrip_spec s :
  exists ws, s = rstrip s +:+ ws /\ all_space ws = true.
Proof.
  induction s as [|a s (ws & E & Hws)]; [exists ""; split; reflexivity|].
  cbn [rstrip]. destruct (rstrip s) as [|b r] eqn:Hr.
  - change ("" +:+ ws) with ws in E. subst s. destruct (isspace a) eqn:Ha.
    + exists (String a ws). split; [reflexivity|].
      unfold all_space. cbn. rewrite Ha. exact Hws.
    + exists ws. split; [reflexivity | exact Hws].
  - exists ws. split; [|exact Hws].
    change (String a (String b r) +:+ ws) with (String a (String b r +:+ ws)).
    rewrite <- E. reflexivity.
Qed.

Lemma rstrip_last s c : last_char (rstrip s) = Some c -> isspace c = false.
Proof.
  induction s as [|a s IH]; [discriminate|].
  cbn [rstrip]. destruct (rstrip s) as [|b r] eqn:Hr.
  - destruct (isspace a) eqn:Ha; [discriminate|].
    intros [= <-]. exact Ha.
  - exact IH.
Qed.

Lemma last_char_lstrip s c : last_char (lstrip s) = Some c -> last_char s = Some c.
Proof.
  induction s as [|a s IH]; [discriminate|].
  cbn [lstrip]. destruct (isspace a); [|trivial].
  intros H. specialize (IH H). cbn [last_char].
  destruct s; [discriminate IH | exact IH].
Qed.

(** X10: [BARE_URI] takes the value apart into leading white space, the
    URI and trailing white space. The URI, which is what the link points
    to and shows, neither starts nor ends with white space; the link is
    preceded by one space for each leading white-space character, and the
    trailing white space is dropped. The link is made exactly when
    [req_qs] returns for the URI, and that is unless the URI cannot be
    joined to the URI of the request, where [BARE_URI] raises
    [ValueError]. *)
Theorem BARE_URI_trims name value :
  let uri := lstrip (rstrip value) in
  exists leading trailing,
    value = leading +:+ uri +:+ trailing
    /\ all_space leading = true /\ all_space trailing = true
    /\ (forall c r, uri = String c r -> isspace c = false)
    /\ (forall c, last_char uri = Some c -> isspace c = false)
    /\ BARE_URI urlquote urljoin_parse context fill name value
       = match req_qs urlquote urljoin_parse context (Some uri) None None
                 false true with
         | Ok qs =>
             Ok (str_mul " " (String.length leading) +:+ "<a href=" +:+ dq
                   +:+ "?" +:+ qs +:+ dq +:+ ">"
                   +:+ I fill (e_html uri) (len name) +:+ "</a>")
         | Raise e => Raise e
         end
    /\ ((exists shown,
            BARE_URI urlquote urljoin_parse context fill name value = Ok shown)
        <-> ~ unjoinable uri)
    /\ (BARE_URI urlquote urljoin_parse context fill name value
        = Raise ValueError <-> unjoinable uri).
Proof.
  cbv zeta.
  destruct (rstrip_spec value) as (trailing & Ev & Ht).
  destruct (lstrip_spec (rstrip value)) as (leading & Er & Hl).
  pose proof (BARE_URI_outcome name value) as H.
  exists leading, trailing.
  split; [|split; [exact Hl|split; [exact Ht|split; [|split; [|split; [|split]]]]]].
  - rewrite <- append_assoc, <- Er. exact Ev.
  - apply lstrip_head.
  - intros c Hc. apply last_char_lstrip in Hc. exact (rstrip_last _ _ Hc).
  - clear H. unfold BARE_URI. cbv zeta.
    replace (Z.to_nat (len (rstrip value) - len (lstrip (rstrip value))))
      with (String.length leading).
    + destruct (req_qs _ _ _ _ _ _ _ _); reflexivity.
    + unfold len. rewrite Er at 1. rewrite append_length. lia.
  - destruct (BARE_URI _ _ _ _ _ _) as [shown|e]; split.
    + intros _. exact H.
    + eauto.
    + intros [shown E]. discriminate E.
    + intros Hn. destruct (Hn (proj2 H)).
  - destruct (BARE_URI _ _ _ _ _ _) as [shown|e]; split.
    + discriminate.
    + intros Hu. destruct (H Hu).
    + intros _. exact (proj2 H).
    + intros _. destruct H as [-> _]. reflexivity.
Qed.

End Presenter.

(** A parser that refuses, as [urljoin] does, a reference whose host
    opens a bracket and does not close it. *)
Definition urljoin_parse1 (base url : string) : option string :=
  if (url =? "http://[")%string then None else Some url.

Example Show_unjoinable :
  Show urlquote0 urljoin_parse1 context0 fill0 "Location" " http://[ "
  = Raise ValueError
  /\ BARE_URI urlquote0 urljoin_parse1 context0 fill0 "location" " /a "
     = Ok (" <a href=" +:+ dq
             +:+ "?uri=/a&req_hdr=Referer%3Ahttp://example.com/" +:+ dq
             +:+ ">/a</a>").
Proof. split; reflexivity. Qed.

Lemma Show_by_token_witness :
  Show urlquote0 urljoin_parse0 context0 fill0 "CONTENT_Location" "/a"
  = Show urlquote0 urljoin_parse0 context0 fill0 "content-location" "/a".
Proof. apply Show_by_token. reflexivity. Defined.

End PresenterFacts.

(** ** More on the notes of a category *)

Module CategoryFacts.
Import Py Html HtmlFacts.

Section Formatters.
Variable levels_BAD : string.
Variables categories_CONNEG categories_VALIDATION categories_RANGE : string.
Variables ConnegCheck_check_name ETagValidate_check_name
          RangeRequest_check_name : string.
Variable urlquote : forall (url safe : string), string.
Variable urljoin_parse : forall (base url : string), option string.
Variable context : Context.

Abbreviation format_category :=
  (format_category levels_BAD categories_CONNEG categories_VALIDATION
     categories_RANGE ConnegCheck_check_name ETagValidate_check_name
     RangeRequest_check_name urlquote urljoin_parse context).
Abbreviation subreq_links :=
  (subreq_links levels_BAD urlquote urljoin_parse context).
Abbreviation note_responses :=
  (note_responses categories_CONNEG categories_VALIDATION categories_RANGE
     ConnegCheck_check_name ETagValidate_check_name RangeRequest_check_name).

(** A check of the list that the resource has no sub-request for. *)
Definition missing_check (resource : Resource) (check_names : list string)
    : Prop :=
  exists check_name,
    In check_name check_names /\ subreqs resource !! check_name = None.

(** A query string for the resource itself: without a link there is
    nothing to join, and [req_qs] returns. *)
Lemma req_qs_same check_name res_format use_stored referer :
  exists qs,
    req_qs urlquote urljoin_parse context None check_name res_format
      use_stored referer = Ok qs.
Proof.
  unfold req_qs.
  destruct (use_stored && truthy (test_id context)); [eexists; reflexivity|].
  cbn [truthy]. unfold urljoin.
  destruct (request_uri context); eexists; reflexivity.
Qed.

Lemma subreq_links_cases resource check_names : forall out,
  (missing_check resource check_names
   /\ subreq_links resource check_names out = Raise KeyError)
  \/ (~ missing_check resource check_names
      /\ exists out',
          subreq_links resource check_names out = Ok out').
Proof.
  induction check_names as [|cn rest IH]; intros out.
  - right. split; [intros (c & [] & _) | eexists; reflexivity].
  - cbn [Html.subreq_links].
    destruct (subreqs resource !! cn) as [sr|] eqn:Hcn.
    + assert (Hm : missing_check resource (cn :: rest)
                   <-> missing_check resource rest).
      { split.
        - intros (c & [<- | Hin] & Hc); [congruence | exists c; auto].
        - intros (c & Hin & Hc). exists c. split; [right|]; assumption. }
      destruct (negb (fetch_started sr)).
      * destruct (IH out) as [[M E] | [M E]]; [left | right];
          (split; [rewrite Hm; exact M | exact E]).
      * destruct (req_qs_same (Some cn) None true true) as [qs ->].
        cbn [mbind result_bind bind].
        match goal with
        | |- context [Html.subreq_links _ _ _ _ _ rest ?o] =>
            destruct (IH o) as [[M E] | [M E]]
        end; [left | right]; (split; [rewrite Hm; exact M | exact E]).
    + left. split; [|reflexivity]. exists cn. split; [left; reflexivity | exact Hcn].
Qed.

(** X11: [format_category] of a category without notes returns a line
    break and leaves the formatter as it is. With notes, it fails in one
    case only, with [KeyError]: the resource is an [HttpResource], the
    category has checks, and the resource lacks the sub-request of one of
    them. *)
Theorem format_category_cases self category_ resource :
  let notes_ :=
    filter (fun note => category (data note) = category_) (notes resource) in
  let missing :=
    is_HttpResource resource = true
    /\ exists check_names,
        dict_get note_responses category_ = Some check_names
        /\ missing_check resource check_names in
  (notes_ = [] /\ format_category self category_ resource = Ok (nl, self))
  \/ (notes_ <> [] /\ missing
      /\ format_category self category_ resource = Raise KeyError)
  \/ (notes_ <> [] /\ ~ missing
      /\ exists out self',
          format_category self category_ resource = Ok (out, self')).
Proof.
  cbv zeta. unfold Html.format_category.
  destruct (filter _ (notes resource)) as [|n ns] eqn:Hf.
  - left. split; reflexivity.
  - right. cbv zeta.
    destruct (is_HttpResource resource) eqn:Hh.
    + destruct (dict_get note_responses category_) as [names|] eqn:Hd.
      * match goal with
        | |- context [Html.subreq_links _ _ _ _ _ names ?o] =>
            destruct (subreq_links_cases resource names o)
              as [[M E] | [M (out' & E)]]
        end; rewrite E.
        -- left. split; [discriminate|]. split; [|reflexivity].
           split; [reflexivity|]. exists names. split; [reflexivity | exact M].
        -- right. split; [discriminate|]. split.
           ++ intros (_ & names' & [= <-] & M'). exact (M M').
           ++ cbn. destruct (category_notes _ _ _). eauto.
      * right. split; [discriminate|]. split.
        -- intros (_ & names' & H & _). discriminate H.
        -- cbn. destruct (category_notes _ _ _). eauto.
    + right. split; [discriminate|]. split.
      * intros (H & _). discriminate H.
      * cbn. destruct (category_notes _ _ _). eauto.
Qed.

End Formatters.

End CategoryFacts.

(** ** The response block *)

Module ResponseFacts.
Import Py Html HtmlFacts HtmlResponse PresenterFacts.

Section Formatters.
Variable description : string -> option string.
Variable html_desc : forall (header_desc name : string), string.
Variable urlquote : forall (url safe : string), string.
Variable urljoin_parse : forall (base url : string), option string.
Variable context : Context.
Variable fill : forall (width : Z) (subsequent_indent : string) (value : string), string.

Abbreviation format_header :=
  (format_header description html_desc urlquote urljoin_parse context fill).
Abbreviation response_headers :=
  (response_headers description html_desc urlquote urljoin_parse context fill).
Abbreviation format_response :=
  (format_response description html_desc urlquote urljoin_parse context fill).
Abbreviation Show := (Show urlquote urljoin_parse context fill).

(** The key of the description of a header in the hidden text. *)
Definition header_key (name : string) : string := "header-" +:+ lower name.

(** Whether the header has a description to show. *)
Definition described (name : string) : bool :=
  match description name with
  | Some header_desc => negb (header_desc =? "")%string
  | None => false
  end.

Definition keys (self : Formatter) : list string := (hidden_text self).*1.

Lemma contains_In xs x : contains xs x = true <-> In x xs.
Proof.
  induction xs as [|y xs IH]; cbn; [split; [discriminate | tauto]|].
  rewrite orb_true_iff, IH, String.eqb_eq. tauto.
Qed.

(** A header that can be presented. *)
Definition presentable (name value : string) : Prop :=
  name <> "" /\ token name <> "formatter"
  /\ ~ broken_link urljoin_parse context name value.

(** What one call of [format_header] does to the formatter. *)
Lemma format_header_state self name value offset out self' :
  format_header self name value offset = Ok (out, self') ->
  (exists shown,
      Show name value = Ok shown
      /\ out = header_span offset name shown)
  /\ lang self' = lang self /\ problems self' = problems self
  /\ (exists added,
         hidden_text self' = (hidden_text self ++ added)%list
         /\ (added = []
             \/ (exists text, added = [(header_key name, text)])
                /\ described name = true
                /\ ~ In (header_key name) (keys self)))
  /\ (described name = true -> In (header_key name) (keys self')).
Proof.
  unfold HtmlResponse.format_header. cbv zeta.
  fold (header_key name). unfold described.
  destruct (Show name value) as [shown|e]; [|discriminate].
  cbn. intros [= <- <-].
  split; [eauto|].
  destruct (description name) as [d|]; cbn.
  - destruct (negb (d =? "")%string) eqn:Hd; cbn [andb].
    + destruct (contains (hidden_text self).*1 (header_key name)) eqn:Hc; cbn.
      * apply contains_In in Hc.
        repeat split; [exists []; rewrite app_nil_r; auto | auto].
      * assert (~ In (header_key name) (keys self)).
        { intros Hin. apply contains_In in Hin. unfold keys in Hin. congruence. }
        repeat split.
        -- eexists. split; [reflexivity|]. right. eauto.
        -- intros _. unfold keys. cbn. rewrite fmap_app.
           apply in_or_app. right. left. reflexivity.
    + repeat split; [exists []; rewrite app_nil_r; auto | discriminate].
  - repeat split; [exists []; rewrite app_nil_r; auto | discriminate].
Qed.

Lemma response_headers_step name value rest offset out self :
  response_headers ((name, value) :: rest) offset out self
  = match format_header self name value (offset + 1) with
    | Ok (h, self1) => response_headers rest (offset + 1) (out ++ [h])%list self1
    | Raise e => Raise e
    end.
Proof.
  cbn [HtmlResponse.response_headers].
  destruct (format_header self name value (offset + 1)) as [[h self1]|e];
    reflexivity.
Qed.

Lemma format_header_ok self name value offset :
  (exists r, format_header self name value offset = Ok r)
  <-> presentable name value.
Proof.
  unfold HtmlResponse.format_header, presentable. cbv zeta.
  pose proof (Show_outcome urlquote urljoin_parse context fill name value) as H.
  destruct (Show name value) as [shown|e]; cbn.
  - split; [intros _; exact H | eauto].
  - split; [intros [r Hr]; discriminate Hr|].
    intros (H1 & H2 & H3).
    destruct H as [[H _] | [[H _] | [H _]]]; contradiction.
Qed.

Lemma response_headers_ok hdrs : forall offset out self,
  (exists r, response_headers hdrs offset out self = Ok r)
  <-> Forall (fun nv => presentable nv.1 nv.2) hdrs.
Proof.
  induction hdrs as [|[name value] rest IH]; intros offset out self.
  - split; [constructor | cbn; eauto].
  - rewrite response_headers_step, Forall_cons. cbn [fst snd].
    rewrite <- (format_header_ok self name value (offset + 1)).
    destruct (format_header self name value (offset + 1)) as [[h self1]|e].
    + rewrite IH. split; [intros H; split; [eauto | exact H] | tauto].
    + split; [intros [r Hr]; discriminate Hr|].
      intros [[r Hr] _]. discriminate Hr.
Qed.

Lemma response_headers_hidden hdrs : forall offset out self out' self',
  response_headers hdrs offset out self = Ok (out', self') ->
  lang self' = lang self /\ problems self' = problems self
  /\ (exists added,
         hidden_text self' = (hidden_text self ++ added)%list
         /\ Forall (fun e => exists n v,
                        In (n, v) hdrs /\ described n = true
                        /\ e.1 = header_key n) added)
  /\ (NoDup (keys self) -> NoDup (keys self'))
  /\ (forall n v, In (n, v) hdrs -> described n = true ->
                  In (header_key n) (keys self')).
Proof.
  induction hdrs as [|[name value] rest IH]; intros offset out self out' self'.
  - cbn. intros [= <- <-]. repeat split; auto.
    + exists []. rewrite app_nil_r. split; [reflexivity | constructor].
    + intros n v [].
  - rewrite response_headers_step.
    destruct (format_header self name value (offset + 1))
      as [[h self1]|e] eqn:Hh; [|discriminate].
    intros Hrest.
    apply format_header_state in Hh
      as (_ & Hl1 & Hp1 & (added1 & Ha1 & Hadd1) & Hin1).
    apply IH in Hrest as (Hl & Hp & (added2 & Ha2 & Hadd2) & Hnd & Hin2).
    split; [congruence|]. split; [congruence|].
    assert (Hkeys : keys self' = (keys self ++ added1.*1 ++ added2.*1)%list).
    { unfold keys. rewrite Ha2, Ha1, !fmap_app, <- app_assoc. reflexivity. }
    split; [|split].
    + exists (added1 ++ added2)%list. split.
      * rewrite Ha2, Ha1, <- app_assoc. reflexivity.
      * apply Forall_app. split.
        -- destruct Hadd1 as [-> | ([text ->] & Hd & _)]; constructor;
             [|constructor].
           exists name, value. split; [left; reflexivity | auto].
        -- eapply Forall_impl; [exact Hadd2|].
           intros e (n & v & Hi & Hd & He). exists n, v.
           split; [right; exact Hi | auto].
    + intros Hnd0. apply Hnd. unfold keys. rewrite Ha1, fmap_app.
      destruct Hadd1 as [-> | ([text ->] & _ & Hfresh)].
      * rewrite app_nil_r. exact Hnd0.
      * apply NoDup_app. split; [exact Hnd0|]. split.
        -- intros x Hx Hx'. apply list_elem_of_In in Hx.
           cbn in Hx'. apply list_elem_of_singleton in Hx'. subst x.
           exact (Hfresh Hx).
        -- cbn. apply NoDup_singleton.
    + intros n v [[= <- <-] | Hi] Hd.
      * specialize (Hin1 Hd). unfold keys in Hin1 |- *.
        rewrite Ha2, fmap_app. apply in_or_app. left. exact Hin1.
      * exact (Hin2 n v Hi Hd).
Qed.

Lemma response_headers_out hdrs : forall offset out self out' self',
  response_headers hdrs offset out self = Ok (out', self') ->
  exists shown,
    Forall2 (fun nv sh => Show nv.1 nv.2 = Ok sh) hdrs shown
    /\ out' = (out ++ imap (fun i p => header_span (offset + 1 + Z.of_nat i)
                                         p.1.1 p.2)
                        (zip hdrs shown))%list.
Proof.
  induction hdrs as [|[name value] rest IH]; intros offset out self out' self'.
  - cbn. intros [= <- <-]. exists []. split; [constructor|].
    cbn. rewrite app_nil_r. reflexivity.
  - rewrite response_headers_step.
    destruct (format_header self name value (offset + 1))
      as [[h self1]|e] eqn:Hh; [|discriminate].
    intros Hrest.
    apply format_header_state in Hh as ((sh & Hs & ->) & _).
    apply IH in Hrest as (shown & Hf & ->).
    exists (sh :: shown). split; [constructor; assumption|].
    cbn [zip zip_with imap]. rewrite <- app_assoc. cbn [app fst snd].
    f_equal. f_equal; [f_equal; lia|].
    apply imap_ext. intros i p _. cbn. f_equal. lia.
Qed.

(** X12: building the response block fails exactly when some header of
    the response cannot be presented, that is, has an empty name, or a
    name whose token is [formatter], or is one of [content_location],
    [location] and [x_xrds_location] with a value that, without the white
    space around it, cannot be joined to the URI of the request (neither
    of the two is empty and [urljoin] raises [ValueError]). *)
Theorem format_response_ok self resource :
  (exists out self', format_response self resource = Ok (out, self'))
  <-> Forall (fun nv =>
                nv.1 <> "" /\ token nv.1 <> "formatter"
                /\ ~ (In (token nv.1) uri_tokens
                      /\ request_uri context <> ""
                      /\ lstrip (rstrip nv.2) <> ""
                      /\ urljoin_parse (request_uri context)
                           (lstrip (rstrip nv.2)) = None))
        (headers (response resource)).
Proof.
  change ((exists out self', format_response self resource = Ok (out, self'))
          <-> Forall (fun nv => presentable nv.1 nv.2)
                (headers (response resource))).
  rewrite <- (response_headers_ok (headers (response resource)) 0 [] self).
  unfold HtmlResponse.format_response.
  destruct (response_headers (headers (response resource)) 0 [] self)
    as [[hdrs self1]|e]; cbn.
  - split; eauto.
  - split; [intros (o & s' & H) | intros [r H]]; discriminate H.
Qed.

(** X13: in the response block the headers are numbered from 1 in the
    order of the response: after the status line comes, for the header at
    position [i], the span with offset [i + 1] that holds what [Show]
    returns for it. *)
Theorem format_response_numbers self resource out self' :
  format_response self resource = Ok (out, self') ->
  exists shown,
    Forall2 (fun nv sh => Show nv.1 nv.2 = Ok sh)
      (headers (response resource)) shown
    /\ out
       = "    <span class='status'>HTTP/"
           +:+ e_html (version (response resource)) +:+ " "
           +:+ e_html (status_code (response resource)) +:+ " "
           +:+ e_html (status_phrase (response resource)) +:+ "</span>" +:+ nl
           +:+ join nl
                 (imap (fun i p => header_span (Z.of_nat i + 1) p.1.1 p.2)
                    (zip (headers (response resource)) shown)).
Proof.
  unfold HtmlResponse.format_response.
  destruct (response_headers (headers (response resource)) 0 [] self)
    as [[hdrs self1]|e] eqn:Hr; cbn; [|discriminate].
  intros [= <- <-].
  apply response_headers_out in Hr as (shown & Hf & ->).
  exists shown. split; [exact Hf|]. cbn [app].
  rewrite (imap_ext _ (fun i p => header_span (Z.of_nat i + 1) p.1.1 p.2));
    [reflexivity|].
  intros i p _. cbn. f_equal. lia.
Qed.

(** X14: [format_response] only adds to the hidden text, and what it adds
    are descriptions of headers of the response, under the key [header-]
    and the name in lower case. It adds no key twice: keys that were
    pairwise different before are so afterwards, however often a header
    occurs and however its name is written. Afterwards every header of the
    response that has a description has its key in the hidden text. *)
Theorem format_response_hidden self resource out self' :
  format_response self resource = Ok (out, self') ->
  (exists added,
      hidden_text self' = (hidden_text self ++ added)%list
      /\ Forall (fun e => exists n v,
                     In (n, v) (headers (response resource))
                     /\ described n = true /\ e.1 = "header-" +:+ lower n)
           added)
  /\ (NoDup (hidden_text self).*1 -> NoDup (hidden_text self').*1)
  /\ (forall n v,
         In (n, v) (headers (response resource)) -> described n = true ->
         In ("header-" +:+ lower n) (hidden_text self').*1).
Proof.
  unfold HtmlResponse.format_response.
  destruct (response_headers (headers (response resource)) 0 [] self)
    as [[hdrs self1]|e] eqn:Hr; cbn; [|discriminate].
  intros [= <- <-].
  apply response_headers_hidden in Hr as (_ & _ & Ha & Hnd & Hin).
  split; [exact Ha|]. split; [exact Hnd | exact Hin].
Qed.

End Formatters.

(** A response with the same header twice, in two spellings. *)
Definition description0 (name : string) : option string :=
  if (lower name =? "etag")%string then Some "The entity tag of the response."
  else None.
Definition html_desc0 (header_desc name : string) : string :=
  "<p>" +:+ header_desc +:+ "</p>".
Definition resource0 : Resource :=
  mk_Resource
    (mk_Response "1.1" "200" "OK"
       [("ETag", "abc"); ("Content-Location", "/a"); ("etag", "abc")]).

Lemma format_response_numbers_witness :
  exists shown,
    Forall2 (fun nv sh => Show urlquote0 urljoin_parse0 context0 fill0 nv.1 nv.2 = Ok sh)
      (headers (response resource0)) shown
    /\ exists out self',
        format_response description0 html_desc0 urlquote0 urljoin_parse0 context0 fill0
          (mk_Formatter "en" [] []) resource0 = Ok (out, self')
        /\ out
           = "    <span class='status'>HTTP/1.1 200 OK</span>" +:+ nl
               +:+ join nl
                     (imap (fun i p => header_span (Z.of_nat i + 1) p.1.1 p.2)
                        (zip (headers (response resource0)) shown)).
Proof.
  destruct (format_response description0 html_desc0 urlquote0 urljoin_parse0 context0 fill0
              (mk_Formatter "en" [] []) resource0) as [[out self']|e] eqn:E;
    [|discriminate E].
  destruct (format_response_numbers description0 html_desc0 urlquote0 urljoin_parse0 context0 fill0
              (mk_Formatter "en" [] []) resource0 out self' E)
    as (shown & Hf & Ho).
  exists shown. split; [exact Hf|]. exists out, self'. split; [reflexivity|].
  exact Ho.
Defined.

Lemma format_response_hidden_witness :
  exists out self',
    format_response description0 html_desc0 urlquote0 urljoin_parse0 context0 fill0
      (mk_Formatter "en" [] []) resource0 = Ok (out, self')
    /\ hidden_text self'
       = [("header-etag", "<p>The entity tag of the response.</p>")]
    /\ NoDup (hidden_text self').*1.
Proof.
  destruct (format_response description0 html_desc0 urlquote0 urljoin_parse0 context0 fill0
              (mk_Formatter "en" [] []) resource0) as [[out self']|e] eqn:E;
    [|discriminate E].
  destruct (format_response_hidden description0 html_desc0 urlquote0 urljoin_parse0 context0 fill0
              (mk_Formatter "en" [] []) resource0 out self' E)
    as (_ & Hnd & _).
  exists out, self'. split; [reflexivity|]. split.
  - injection E as _ <-. reflexivity.
  - apply Hnd. constructor.
Defined.

End ResponseFacts.
